(** * An EIP-1193 provider shim: the code of [provider_factory.js] and its properties

    [createEip1193Provider(cfg)] builds a wallet provider object whose
    closure holds the selected address, the chain id and an event emitter,
    and whose methods talk to a native host through one asynchronous
    bridge call.  This file embeds that code function by function and
    proves the properties its specification states about it.

    Conventions of the embedding
    - JavaScript values are the type [JsVal].  Numbers are the integers
      (request ids, error codes); NaN, infinities and fractions are outside
      the model.  Strings are byte strings.  Arrays and objects carry the
      identity [Ref] that [===] compares; an array is described by its
      elements and an object by its properties, which are data properties.
    - A function of the page (an event handler, a Node-style callback) is
      known by a number; what it does when called is given by [page], which
      sees the calls made so far.  In [Emitter_emit] and the methods built
      on it page functions do not call back into the provider while they
      run; in [Emitter_emit_live] the handlers call [on] and
      [removeListener] while [emit] walks the Set, as [reentry] says.
    - The built-ins whose result the code only passes on are parameters of
      the development: [toLowerCase], [ToString], [JSON_parse],
      [JSON_stringify].
    - A promise is modelled by its settlement.  The synchronous part of
      [request], [send] and [sendAsync] reads and writes no provider state,
      so a call is modelled as made at the moment its reply arrives: the
      reaction attached with [.then] runs in the state the reply finds. *)

From Stdlib Require Import String Ascii ZArith List Bool.
From stdpp Require Import base option list gmap strings.

Set Warnings "-register-all,-notation-for-abbreviation".
Local Open Scope string_scope.
Local Open Scope list_scope.
Local Open Scope Z_scope.

(** ** Values *)

(** Identity of an array or object: [Ext n] was created outside the provider
    (by the page, the host or the JSON parser), [Own n] is the [n]-th object
    the provider's own code created. *)
Inductive Ref : Type :=
| Ext (n : nat)
| Own (n : nat).

Definition Ref_eqb (a b : Ref) : bool :=
  match a, b with
  | Ext n, Ext m => Nat.eqb n m
  | Own n, Own m => Nat.eqb n m
  | _, _ => false
  end.

Inductive JsVal : Type :=
| VUndef
| VNull
| VBool (b : bool)
| VNum (z : Z)
| VStr (s : string)
| VArr (r : Ref) (elems : list JsVal)
| VObj (r : Ref) (props : list (string * JsVal))
| VFun (f : nat).

(** [typeof v] *)
Definition typeof (v : JsVal) : string :=
  match v with
  | VUndef => "undefined"
  | VNull | VArr _ _ | VObj _ _ => "object"
  | VBool _ => "boolean"
  | VNum _ => "number"
  | VStr _ => "string"
  | VFun _ => "function"
  end.

(** ToBoolean: what [!v], [v || w], [v && w] and [if (v)] test. *)
Definition truthy (v : JsVal) : bool :=
  match v with
  | VUndef | VNull => false
  | VBool b => b
  | VNum z => negb (z =? 0)
  | VStr s => negb (String.eqb s "")
  | VArr _ _ | VObj _ _ | VFun _ => true
  end.

(** [a === b]; [a !== b] is its negation. *)
Definition strict_eq (a b : JsVal) : bool :=
  match a, b with
  | VUndef, VUndef => true
  | VNull, VNull => true
  | VBool x, VBool y => Bool.eqb x y
  | VNum x, VNum y => x =? y
  | VStr x, VStr y => String.eqb x y
  | VArr r _, VArr r' _ => Ref_eqb r r'
  | VObj r _, VObj r' _ => Ref_eqb r r'
  | VFun f, VFun g => Nat.eqb f g
  | _, _ => false
  end.

(** [a || b] *)
Definition js_or (a b : JsVal) : JsVal := if truthy a then a else b.

(** [a && b] *)
Definition js_and (a b : JsVal) : JsVal := if truthy a then b else a.

Definition nullish (v : JsVal) : bool :=
  match v with
  | VUndef | VNull => true
  | _ => false
  end.

(** [a ?? b] *)
Definition js_coalesce (a b : JsVal) : JsVal := if nullish a then b else a.

(** [Array.isArray(v)] *)
Definition isArray (v : JsVal) : bool :=
  match v with
  | VArr _ _ => true
  | _ => false
  end.

Fixpoint own_prop (props : list (string * JsVal)) (name : string) : option JsVal :=
  match props with
  | [] => None
  | (k, v) :: rest => if String.eqb k name then Some v else own_prop rest name
  end.

(** [v.name] for the names the code reads ([error], [result], [message],
    [code], [data], [id], [method], [params]): [None] is the TypeError of a
    read on [null] or [undefined]; a value without the property reads as
    [undefined].  None of these names is inherited from a prototype. *)
Definition get (v : JsVal) (name : string) : option JsVal :=
  match v with
  | VUndef | VNull => None
  | VObj _ props => Some (default VUndef (own_prop props name))
  | _ => Some VUndef
  end.

(** [v[0]], same convention: the first element of an array, the first
    character of a string, the property ["0"] of an object. *)
Definition get0 (v : JsVal) : option JsVal :=
  match v with
  | VUndef | VNull => None
  | VArr _ elems => Some (default VUndef (head elems))
  | VStr (String c _) => Some (VStr (String c ""))
  | VObj _ props => Some (default VUndef (own_prop props "0"))
  | _ => Some VUndef
  end.

(** [o.name = v] on an object: replaces the property or appends it. *)
Fixpoint put_prop (props : list (string * JsVal)) (name : string) (v : JsVal)
  : list (string * JsVal) :=
  match props with
  | [] => [(name, v)]
  | (k, x) :: rest =>
      if String.eqb k name then (k, v) :: rest else (k, x) :: put_prop rest name v
  end.

Definition set (o : JsVal) (name : string) (v : JsVal) : JsVal :=
  match o with
  | VObj r props => VObj r (put_prop props name v)
  | _ => o
  end.

(** ** Completions, settlements and the closure's state *)

(** How a piece of synchronous code ends. *)
Inductive Completion (A : Type) : Type :=
| Normal (a : A)
| Throw (e : JsVal).
Arguments Normal {A} a.
Arguments Throw {A} e.

(** How a promise ends, if it does. *)
Inductive Settled (A : Type) : Type :=
| Fulfilled (a : A)
| Rejected (e : JsVal)
| Pending.
Arguments Fulfilled {A} a.
Arguments Rejected {A} e.
Arguments Pending {A}.

(** One call of [emitter.emit]: the event name and the arguments. *)
Definition Emission : Type := string * list JsVal.

(** One call of a page function: the function and the arguments. *)
Definition Invocation : Type := nat * list JsVal.

(** The variables [createEip1193Provider] closes over ([_selectedAddress],
    [_chainId], the emitter's [_m]), the number of objects the provider has
    created, and what an observer of the page has seen: the calls of [emit]
    (kept for the statements only), the calls of page functions and the
    lines of [console.error], oldest first. *)
Record State : Type := mkState {
  _selectedAddress : JsVal;
  _chainId : JsVal;
  _m : gmap string (list nat);
  allocated : nat;
  emitted : list Emission;
  invoked : list Invocation;
  console_error : list JsVal
}.

Definition M (A : Type) : Type := State -> Completion A * State.

Definition ret {A} (a : A) : M A := fun s => (Normal a, s).

Definition throw {A} (e : JsVal) : M A := fun s => (Throw e, s).

Definition bind {A B} (m : M A) (k : A -> M B) : M B := fun s =>
  match m s with
  | (Normal a, s') => k a s'
  | (Throw e, s') => (Throw e, s')
  end.

Notation "'let*' x ':=' m 'in' k" := (bind m (fun x => k))
  (at level 10, x name, m at level 100, k at level 200).
Notation "'do' m 'in' k" := (bind m (fun _ => k))
  (at level 10, m at level 100, k at level 200).

Definition gets {A} (f : State -> A) : M A := fun s => (Normal (f s), s).

(** An operation that throws where the model gives [None] or [Throw]. *)
Definition lift {A} (c : Completion A) : M A := fun s => (c, s).

(** [try { m } catch (e) { h e }] *)
Definition try_catch {A} (m : M A) (h : JsVal -> M A) : M A := fun s =>
  match m s with
  | (Normal a, s') => (Normal a, s')
  | (Throw e, s') => h e s'
  end.

(** [p.then(f)]: the reaction runs when [p] is fulfilled; what it returns
    fulfils the new promise, what it throws rejects it. *)
Definition then_ {A B} (p : Settled A) (f : A -> M B) : M (Settled B) := fun s =>
  match p with
  | Fulfilled a =>
      match f a s with
      | (Normal b, s') => (Normal (Fulfilled b), s')
      | (Throw e, s') => (Normal (Rejected e), s')
      end
  | Rejected e => (Normal (Rejected e), s)
  | Pending => (Normal Pending, s)
  end.

(** [p.catch(f)] *)
Definition catch_ {A} (p : Settled A) (f : JsVal -> M A) : M (Settled A) := fun s =>
  match p with
  | Fulfilled a => (Normal (Fulfilled a), s)
  | Rejected e =>
      match f e s with
      | (Normal b, s') => (Normal (Fulfilled b), s')
      | (Throw e', s') => (Normal (Rejected e'), s')
      end
  | Pending => (Normal Pending, s)
  end.

Definition set_selectedAddress (v : JsVal) : M unit := fun s =>
  (Normal tt, mkState v (_chainId s) (_m s) (allocated s) (emitted s) (invoked s)
                      (console_error s)).

Definition set_chainId (v : JsVal) : M unit := fun s =>
  (Normal tt, mkState (_selectedAddress s) v (_m s) (allocated s) (emitted s) (invoked s)
                      (console_error s)).

Definition set_m (m : gmap string (list nat)) : M unit := fun s =>
  (Normal tt, mkState (_selectedAddress s) (_chainId s) m (allocated s) (emitted s)
                      (invoked s) (console_error s)).

(** A new object: the next own identity. *)
Definition fresh : M Ref := fun s =>
  (Normal (Own (allocated s)),
   mkState (_selectedAddress s) (_chainId s) (_m s) (S (allocated s)) (emitted s)
           (invoked s) (console_error s)).

Definition record_emit (e : Emission) : M unit := fun s =>
  (Normal tt, mkState (_selectedAddress s) (_chainId s) (_m s) (allocated s)
                      (emitted s ++ [e]) (invoked s) (console_error s)).

Definition record_call (c : Invocation) : M unit := fun s =>
  (Normal tt, mkState (_selectedAddress s) (_chainId s) (_m s) (allocated s) (emitted s)
                      (invoked s ++ [c]) (console_error s)).

(** [console.error(e)] *)
Definition console_error_ (e : JsVal) : M unit := fun s =>
  (Normal tt, mkState (_selectedAddress s) (_chainId s) (_m s) (allocated s) (emitted s)
                      (invoked s) (console_error s ++ [e])).

(** An object literal [{ k1: v1, ... }] *)
Definition object (props : list (string * JsVal)) : M JsVal :=
  let* r := fresh in ret (VObj r props).

(** An array literal [[v1, ...]] *)
Definition array (elems : list JsVal) : M JsVal :=
  let* r := fresh in ret (VArr r elems).

(** A TypeError raised by the engine.  The text of such messages is not fixed
    by the language; the model names the failed operation. *)
Definition TypeError {A} (what : string) : M A :=
  let* e := object [("message", VStr what)] in throw e.

Definition read (what : string) (o : option JsVal) : M JsVal :=
  match o with
  | Some v => ret v
  | None => TypeError what
  end.

(** ** Configuration, host and emitter data *)

(** The configuration object: an absent field reads as [undefined]. *)
Record Config : Type := mkConfig {
  cfg_name : JsVal;
  cfg_icon : JsVal;
  cfg_rdns : JsVal;
  cfg_bridgeName : JsVal;
  cfg_initialSelectedAddress : JsVal;
  cfg_initialChainId : JsVal;
  cfg_autoInject : JsVal;
  cfg_forceReplace : JsVal;
  cfg_enableLegacyWeb3 : JsVal;
  cfg_enableEip6963 : JsVal
}.

(** What [window.flutter_inappwebview.callHandler(name, json)] does: it
    returns a promise that is fulfilled with [raw], rejected with [e] or
    never settled, or the call itself fails with [e]. *)
Inductive HostReply : Type :=
| Resolves (raw : JsVal)
| Rejects (e : JsVal)
| Hangs
| Fails (e : JsVal).

Definition Bridge : Type := JsVal -> string -> HostReply.

(** The own property names of [Object.prototype], which the object [{}] of
    the emitter inherits; each holds a function or an object. *)
Definition Object_prototype : list string :=
  ["constructor"; "__defineGetter__"; "__defineSetter__"; "hasOwnProperty";
   "__lookupGetter__"; "__lookupSetter__"; "isPrototypeOf"; "propertyIsEnumerable";
   "toString"; "valueOf"; "__proto__"; "toLocaleString"].

(** What [this._m[event]] reads. *)
Inductive Slot : Type :=
| Missing
| Inherited
| Handlers (hs : list nat).

Definition slot (m : gmap string (list nat)) (event : string) : Slot :=
  match m !! event with
  | Some hs => Handlers hs
  | None => if bool_decide (event ∈ Object_prototype) then Inherited else Missing
  end.

(** [set.add(h)] and [set.delete(h)] on a [Set], kept in insertion order. *)
Definition Set_add (hs : list nat) (h : nat) : list nat :=
  if bool_decide (h ∈ hs) then hs else hs ++ [h].

Definition Set_delete (hs : list nat) (h : nat) : list nat :=
  filter (fun x => x ≠ h) hs.

(** [set.forEach(f)] with an [f] that leaves the Set as it is; for an [f]
    that adds to the Set or deletes from it see [forEach_live]. *)
Fixpoint forEach (hs : list nat) (f : nat -> M unit) : M unit :=
  match hs with
  | [] => ret tt
  | h :: rest => do f h in forEach rest f
  end.

(** ** Installing the provider in the page *)

(** A value found in [window.ethereum]: a provider made by this factory,
    known by a number, or anything else. *)
Inductive Global : Type :=
| Provider (p : nat)
| Other (v : JsVal).

Definition Global_truthy (g : Global) : bool :=
  match g with
  | Provider _ => true
  | Other v => truthy v
  end.

(** SameValue on what the slot can hold, on the values the model has. *)
Definition Global_same (a b : Global) : bool :=
  match a, b with
  | Provider p, Provider q => Nat.eqb p q
  | Other v, Other w => strict_eq v w
  | _, _ => false
  end.

(** A data property of [window]. *)
Record Property : Type := mkProperty {
  value : Global;
  writable : bool;
  configurable : bool
}.

(** The part of [window] the factory touches: the [ethereum] property, the
    provider [web3.currentProvider] points to, the listeners added for
    ['eip6963:requestProvider'] (by provider) and the types of the events
    dispatched so far, oldest first. *)
Record Window : Type := mkWindow {
  ethereum : option Property;
  web3 : option nat;
  requestProvider_listeners : list nat;
  dispatched : list string
}.

(** [window.ethereum] as a value *)
Definition window_ethereum (w : Window) : Global :=
  match ethereum w with
  | Some pr => value pr
  | None => Other VUndef
  end.

(** [Object.defineProperty(window, 'ethereum', { value, configurable })]:
    [None] is the TypeError of redefining a property that does not allow it. *)
Definition defineProperty_ethereum (v : Global) (c : bool) (w : Window) : option Window :=
  let put pr := mkWindow (Some pr) (web3 w) (requestProvider_listeners w) (dispatched w) in
  match ethereum w with
  | None => Some (put (mkProperty v false c))
  | Some old =>
      if configurable old then Some (put (mkProperty v (writable old) c))
      else if c then None
      else if writable old then Some (put (mkProperty v true false))
      else if Global_same v (value old) then Some w
      else None
  end.

(** [window.dispatchEvent(new Event(type))] *)
Definition dispatchEvent (type : string) (w : Window) : Window :=
  mkWindow (ethereum w) (web3 w) (requestProvider_listeners w) (dispatched w ++ [type]).

(** [createEip1193Provider(cfg)] after the provider object [p] is built.
    First the legacy pointer [window.web3] and the EIP-6963 announcement,
    on a page where the statements of the [try] block succeed.  The
    assignment of [provider.providers] changes nothing in the page. *)
Definition announce (cfg : Config) (p : nat) (w : Window) : Window :=
  let w := if negb (strict_eq (cfg_enableLegacyWeb3 cfg) (VBool false))
           then mkWindow (ethereum w) (Some p) (requestProvider_listeners w) (dispatched w)
           else w in
  if negb (strict_eq (cfg_enableEip6963 cfg) (VBool false))
  then dispatchEvent "eip6963:announceProvider"
         (mkWindow (ethereum w) (web3 w) (requestProvider_listeners w ++ [p]) (dispatched w))
  else w.

(** Then the installation as [window.ethereum]; the factory returns the
    provider, or fails with the TypeError of [Object.defineProperty]. *)
Definition inject (cfg : Config) (p : nat) (w : Window) : option nat * Window :=
  let shouldInject := negb (strict_eq (cfg_autoInject cfg) (VBool false)) in
  let hasExisting := Global_truthy (window_ethereum w) in
  if shouldInject && (negb hasExisting || truthy (cfg_forceReplace cfg)) then
    match defineProperty_ethereum (Provider p) (truthy (cfg_forceReplace cfg)) w with
    | Some w' => (Some p, dispatchEvent "ethereum#initialized" w')
    | None => (None, w)
    end
  else (Some p, w).

Definition createEip1193Provider (cfg : Config) (p : nat) (w : Window)
  : option nat * Window :=
  inject cfg p (announce cfg p w).

(** ** Vocabulary of the statements *)

(** The state after the provider has created [n] more objects. *)
Definition allocate (n : nat) (s : State) : State :=
  mkState (_selectedAddress s) (_chainId s) (_m s) (n + allocated s) (emitted s)
          (invoked s) (console_error s).

(** [v.name] where [v] is known not to be [null] or [undefined]. *)
Definition field (v : JsVal) (name : string) : JsVal := default VUndef (get v name).

(** [s'] has the same address, chain id and listeners as [s], and saw no
    further call of [emit]. *)
Definition same_provider (s s' : State) : Prop :=
  _selectedAddress s' = _selectedAddress s /\ _chainId s' = _chainId s
  /\ _m s' = _m s /\ emitted s' = emitted s.

(** A computation that leaves the provider as it was, however it ends. *)
Definition frames {A} (m : M A) : Prop := forall s, same_provider s (snd (m s)).

(** How many times the initialization signal was dispatched. *)
Definition initialized (w : Window) : nat :=
  length (filter (fun type => type = "ethereum#initialized") (dispatched w)).

(** How an accounts array reaches the provider: as the result of a
    [request], or pushed by the host. *)
Inductive Path : Type :=
| ByRequest (callHandler : option Bridge) (id : Z) (method params : JsVal)
| ByHost.

Record Delivery : Type := mkDelivery {
  path : Path;
  ref : Ref;
  accounts : list string
}.

Definition accounts_array (d : Delivery) : JsVal := VArr (ref d) (VStr <$> accounts d).

(** A call of [on] or [removeListener]. *)
Inductive Registration : Type :=
| Add (event : string) (handler : nat)
| Remove (event : string) (handler : nat).

(** The new emissions of a change: none when nothing changed. *)
Definition change (same : bool) (e : Emission) : list Emission :=
  if same then [] else [e].

(** [s'] is [s] but for the number of objects created. *)
Definition only_allocates (s s' : State) : Prop :=
  _selectedAddress s' = _selectedAddress s /\ _chainId s' = _chainId s
  /\ _m s' = _m s /\ emitted s' = emitted s
  /\ invoked s' = invoked s /\ console_error s' = console_error s.

(** A computation that at most creates objects, however it ends. *)
Definition pure {A} (m : M A) : Prop := forall s, only_allocates s (snd (m s)).

(** [payload && payload[0]] *)
Definition first_of (payload : JsVal) : JsVal :=
  if truthy payload then default VUndef (get0 payload) else payload.

(** [null] or a string that is not empty. *)
Definition address_ok (v : JsVal) : bool :=
  match v with
  | VNull => true
  | VStr a => negb (String.eqb a "")
  | _ => false
  end.

(** [v] carries no [toLowerCase] of its own: [v.toLowerCase] is the
    built-in of strings or is no function.  An object is described by its
    properties; what a function carries is not described, so a function
    does not count. *)
Definition no_own_method (v : JsVal) : bool :=
  match v with
  | VObj _ props =>
      match own_prop props "toLowerCase" with
      | Some (VFun _) => false
      | _ => true
      end
  | VFun _ => false
  | _ => true
  end.

(** A call of a method of the provider. *)
Inductive Operation : Type :=
| Request (callHandler : option Bridge) (id : Z) (method params : JsVal)
| Enable (callHandler : option Bridge) (id : Z)
| Send (callHandler : option Bridge) (id : Z) (methodOrPayload paramsOrCallback : JsVal)
| SendAsync (callHandler : option Bridge) (id : Z) (payload cb : JsVal)
| EmitFromHost (event : string) (payload : JsVal)
| On (event : string) (handler : nat)
| RemoveListener (event : string) (handler : nat).

(** A platform to run the examples on: lower case of the letters A to Z, a
    parser that rejects every text, a printer that prints nothing, and a
    page whose function number 2 throws. *)
Definition ascii_lower (c : ascii) : ascii :=
  let n := nat_of_ascii c in
  if (Nat.leb 65 n && Nat.leb n 90)%bool then ascii_of_nat (n + 32) else c.

Fixpoint lower (s : string) : string :=
  match s with
  | EmptyString => EmptyString
  | String c rest => String (ascii_lower c) (lower rest)
  end.

Definition no_text (v : JsVal) : string := "".

Definition no_parse (s : string) : Completion JsVal := Throw (VStr "SyntaxError").

Definition no_json (props : list (string * JsVal)) : string := "".

Definition page2 (history : list Invocation) (f : nat) (args : list JsVal) : option JsVal :=
  if Nat.eqb f 2 then Some (VStr "boom") else None.

(** What the handlers of the examples call while they run: handler 2
    removes handler 1 of 'accountsChanged' and registers handler 7 for
    'chainChanged'; handler 3 removes handler 1 of 'message' and registers
    it again. *)
Definition removing (history : list Invocation) (f : nat) (args : list JsVal)
  : list Registration :=
  if Nat.eqb f 2 then [Remove "accountsChanged" 1%nat; Add "chainChanged" 7%nat] else [].

Definition readding (history : list Invocation) (f : nat) (args : list JsVal)
  : list Registration :=
  if Nat.eqb f 3 then [Remove "message" 1%nat; Add "message" 1%nat] else [].

Definition no_config : Config :=
  mkConfig VUndef VUndef VUndef VUndef VUndef VUndef VUndef VUndef VUndef VUndef.

(** A host that answers every call with [raw]. *)
Definition answering (raw : JsVal) : Bridge := fun _ _ => Resolves raw.

(** Host responses and payloads of the examples. *)
Definition user_rejected : JsVal :=
  VObj (Ext 1) [("code", VNum 4001); ("message", VStr "User rejected")].

Definition empty_message : JsVal :=
  VObj (Ext 1) [("code", VNum 4001); ("message", VStr "")].

Definition error_response (error : JsVal) : JsVal := VObj (Ext 0) [("error", error)].

Definition result_response (result : JsVal) : JsVal := VObj (Ext 0) [("result", result)].

Definition chainId_payload : JsVal :=
  VObj (Ext 2) [("id", VNum 7); ("method", VStr "eth_chainId")].

(** Three account updates: a request answered with ['0xAbC'], a push of
    ['0xabc'] and a push of no account. *)
Definition three_updates : list Delivery :=
  [mkDelivery (ByRequest (Some (answering (result_response (VArr (Ext 3) [VStr "0xAbC"]))))
                         1 (VStr "eth_requestAccounts") VUndef)
              (Ext 3) ["0xAbC"];
   mkDelivery ByHost (Ext 4) ["0xabc"];
   mkDelivery ByHost (Ext 5) []].

(** Handler 2 is added twice and handler 3 is removed again. *)
Definition five_registrations : list Registration :=
  [Add "accountsChanged" 3; Add "accountsChanged" 2; Add "accountsChanged" 2;
   Add "accountsChanged" 1; Remove "accountsChanged" 3].

(** A page without provider, and one where provider 1 is installed. *)
Definition empty_window : Window := mkWindow None None [] [].

Definition installed_window : Window :=
  mkWindow (Some (mkProperty (Provider 1) false false)) (Some 1%nat) [1%nat]
           ["eip6963:announceProvider"; "ethereum#initialized"].

(** More hosts, configurations and states of the examples. *)
Definition hanging : Bridge := fun _ _ => Hangs.

Definition rejecting (e : JsVal) : Bridge := fun _ _ => Rejects e.

Definition failing (e : JsVal) : Bridge := fun _ _ => Fails e.

Definition force_config : Config :=
  mkConfig VUndef VUndef VUndef VUndef VUndef VUndef VUndef (VBool true) VUndef VUndef.

Definition off_config : Config :=
  mkConfig VUndef VUndef VUndef VUndef VUndef VUndef (VBool false) VUndef VUndef (VBool false).

Definition connected : State :=
  mkState (VStr "0xAbC") (VStr "0x1") ∅ 0 [] [] [].

(** Calls of every method, with arguments the code is not written for. *)
Definition some_operations : list Operation :=
  [On "accountsChanged" 2;
   EmitFromHost "accountsChanged" (VArr (Ext 3) [VStr ""; VStr "0x1"]);
   Request (Some (answering (result_response (VArr (Ext 4) [VNum 5]))))
           1 (VStr "eth_accounts") VUndef;
   Send None 2 (VStr "eth_requestAccounts") VUndef;
   SendAsync None 3 VNull VUndef;
   Enable (Some (answering (result_response (VArr (Ext 5) [VStr "0xDeF"])))) 4;
   EmitFromHost "toString" (VStr "x");
   RemoveListener "accountsChanged" 2].

(** ** The provider object *)

Section Provider.

(** [String.prototype.toLowerCase] *)
Variable toLowerCase : string -> string.
(** [String(v)] for a value that is not a string *)
Variable ToString : JsVal -> string.
(** [JSON.parse]: the value, or the SyntaxError it throws *)
Variable JSON_parse : string -> Completion JsVal.
(** [JSON.stringify] of an object literal with these properties, which are
    values it prints (it throws on none of them) *)
Variable JSON_stringify : list (string * JsVal) -> string.
(** What page function [f] does when called with [args] after the calls
    [history]: it returns ([None]) or throws ([Some e]). *)
Variable page : list Invocation -> nat -> list JsVal -> option JsVal.

(** The calls of [provider.on] and [provider.removeListener] that page
    function [f] makes while it runs, in order. *)
Variable reentry : list Invocation -> nat -> list JsVal -> list Registration.

Variable cfg : Config.

(** [fn(...args)] for a page function that calls nothing of the provider
    while it runs *)
Definition call_fn (f : nat) (args : list JsVal) : M unit :=
  let* history := gets invoked in
  do record_call (f, args) in
  match page history f args with
  | None => ret tt
  | Some e => throw e
  end.

(** [v(...args)] for any value *)
Definition call (v : JsVal) (args : list JsVal) : M unit :=
  match v with
  | VFun f => call_fn f args
  | _ => TypeError "not a function"
  end.

(** [String(v)] *)
Definition String_ (v : JsVal) : string :=
  match v with
  | VStr s => s
  | _ => ToString v
  end.

(** [new Error(message)] *)
Definition new_Error (message : JsVal) : M JsVal :=
  object [("message", VStr (String_ message))].

(** [v.toLowerCase()] for a [v] that carries no [toLowerCase] of its own
    ([no_own_method]): the built-in of strings, and a TypeError for every
    other value.  A value with such a method of its own is outside. *)
Definition toLowerCase_ (v : JsVal) : M JsVal :=
  match v with
  | VStr s => ret (VStr (toLowerCase s))
  | _ => TypeError "toLowerCase is not a function"
  end.

(** *** class Emitter *)

Definition Emitter_on (event : string) (handler : nat) : M unit :=
  let* m := gets _m in
  match slot m event with
  | Handlers hs => set_m (<[event := Set_add hs handler]> m)
  | Missing => set_m (<[event := Set_add [] handler]> m)
  | Inherited => TypeError "add is not a function"
  end.

Definition Emitter_removeListener (event : string) (handler : nat) : M unit :=
  let* m := gets _m in
  match slot m event with
  | Handlers hs => set_m (<[event := Set_delete hs handler]> m)
  | Missing => ret tt
  | Inherited => TypeError "delete is not a function"
  end.

Definition Emitter_emit (event : string) (args : list JsVal) : M unit :=
  do record_emit (event, args) in
  let* m := gets _m in
  match slot m event with
  | Handlers hs =>
      forEach hs (fun fn => try_catch (call_fn fn args) (fun e => console_error_ e))
  | Missing => ret tt
  | Inherited => TypeError "forEach is not a function"
  end.

(** *** The bridge to the host *)

Definition BRIDGE : JsVal := js_or (cfg_bridgeName cfg) (VStr "ethereum").

(** The reaction of [callHost] to the host's raw reply. *)
Definition callHost_then (raw : JsVal) : M JsVal :=
  let* resp := match raw with
               | VStr s => lift (JSON_parse s)
               | _ => ret raw
               end in
  if negb (truthy resp) then ret VNull else
  let* error := read "resp.error" (get resp "error") in
  if truthy error then
    let* message := read "resp.error.message" (get error "message") in
    let* e := new_Error (js_or message (VStr "Provider error")) in
    let* code := read "resp.error.code" (get error "code") in
    let e := set e "code" (js_coalesce code (VNum (-32603))) in
    let* data := read "resp.error.data" (get error "data") in
    let e := if negb (strict_eq data VUndef) then set e "data" data else e in
    throw e
  else read "resp.result" (get resp "result").

Definition callHost (callHandler : option Bridge) (payload : list (string * JsVal))
  : M (Settled JsVal) :=
  match callHandler with
  | None =>
      let* err := new_Error (VStr "Bridge not available") in
      let err := set err "code" (VNum (-32603)) in
      ret (Rejected err)
  | Some callHandler =>
      match callHandler BRIDGE (JSON_stringify payload) with
      | Resolves raw => then_ (Fulfilled raw) callHost_then
      | Rejects e => then_ (Rejected e) callHost_then
      | Hangs => then_ Pending callHost_then
      | Fails e => throw e
      end
  end.

(** *** The provider object *)

(** The reaction of [request] to the result of the bridge call. *)
Definition request_then (method result : JsVal) : M JsVal :=
  do (if strict_eq method (VStr "eth_requestAccounts")
         || strict_eq method (VStr "eth_accounts") then
        if isArray result then
          let* first := read "result[0]" (get0 result) in
          let next := js_or first VNull in
          let* current := gets _selectedAddress in
          let* l := toLowerCase_ (js_or next (VStr "")) in
          let* r := toLowerCase_ (js_or current (VStr "")) in
          let changed := negb (strict_eq l r) in
          do set_selectedAddress next in
          if changed then
            let* selected := gets _selectedAddress in
            let* accounts := if truthy selected then array [selected] else array [] in
            Emitter_emit "accountsChanged" [accounts]
          else ret tt
        else ret tt
      else if strict_eq method (VStr "eth_chainId") then
        if String.eqb (typeof result) "string" then
          let* current := gets _chainId in
          let changed := negb (strict_eq result current) in
          do set_chainId result in
          if changed then
            let* chain := gets _chainId in
            Emitter_emit "chainChanged" [chain]
          else ret tt
        else ret tt
      else ret tt) in
  ret result.

(** The body of [request], once its parameter is destructured into
    [method] and [params], an absent one being [undefined]; [id] is what
    [genId()] returns.  [provider_request] below is the whole function. *)
Definition request (callHandler : option Bridge) (id : Z) (method params : JsVal)
  : M (Settled JsVal) :=
  let* p := callHost callHandler [("id", VNum id); ("method", method); ("params", params)] in
  then_ p (request_then method).

(** [request] as the page calls it, with its parameter
    [{ method, params } = {}]: [undefined] takes the default [{}], [null]
    cannot be destructured and the call throws a TypeError, and any other
    value is read for its two properties. *)
Definition provider_request (callHandler : option Bridge) (id : Z) (arg : JsVal)
  : M (Settled JsVal) :=
  match arg with
  | VUndef => request callHandler id VUndef VUndef
  | _ =>
      let* method := read "method" (get arg "method") in
      let* params := read "params" (get arg "params") in
      request callHandler id method params
  end.

Definition on (event : string) (handler : nat) : M unit := Emitter_on event handler.

Definition removeListener (event : string) (handler : nat) : M unit :=
  Emitter_removeListener event handler.

Definition enable (callHandler : option Bridge) (id : Z) : M (Settled JsVal) :=
  request callHandler id (VStr "eth_requestAccounts") VUndef.

Definition _emitFromHost (event : string) (payload : JsVal) : M unit :=
  if String.eqb event "accountsChanged" then
    let* first := if truthy payload then read "payload[0]" (get0 payload) else ret payload in
    let next := js_or first VNull in
    let* current := gets _selectedAddress in
    let* l := toLowerCase_ (js_or next (VStr "")) in
    let* r := toLowerCase_ (js_or current (VStr "")) in
    let changed := negb (strict_eq l r) in
    do set_selectedAddress next in
    if changed then
      let* selected := gets _selectedAddress in
      let* accounts := if truthy selected then array [selected] else array [] in
      Emitter_emit "accountsChanged" [accounts]
    else ret tt
  else if String.eqb event "chainChanged" then
    let* current := gets _chainId in
    let changed := negb (strict_eq payload current) in
    do set_chainId payload in
    if changed then
      let* chain := gets _chainId in
      Emitter_emit "chainChanged" [chain]
    else ret tt
  else Emitter_emit event [payload].

(** What [send] hands back: a promise, or nothing in callback mode. *)
Inductive Returned : Type :=
| APromise (p : Settled JsVal)
| Nothing.

(** The two reactions that turn the outcome of the bridge call into a
    JSON-RPC envelope; [payload] is the caller's object. *)
Definition envelope_result (payload result : JsVal) : M JsVal :=
  let* r := fresh in
  let* id := read "payload.id" (get payload "id") in
  ret (VObj r [("id", id); ("jsonrpc", VStr "2.0"); ("result", result)]).

Definition envelope_error (payload err : JsVal) : M JsVal :=
  let* r := fresh in
  let* id := read "payload.id" (get payload "id") in
  let* r' := fresh in
  let* code := read "err.code" (get err "code") in
  let* message := read "err.message" (get err "message") in
  let* data := read "err.data" (get err "data") in
  ret (VObj r [("id", id); ("jsonrpc", VStr "2.0");
               ("error", VObj r' [("code", js_coalesce code (VNum (-32603)));
                                  ("message", message); ("data", data)])]).

(** [send(methodOrPayload, paramsOrCallback)]; [id] is what [genId()]
    returns when it is called. *)
Definition send (callHandler : option Bridge) (id : Z)
    (methodOrPayload paramsOrCallback : JsVal) : M Returned :=
  if String.eqb (typeof methodOrPayload) "string" then
    let* p := request callHandler id methodOrPayload paramsOrCallback in
    ret (APromise p)
  else
    let payload := methodOrPayload in
    let cb := if String.eqb (typeof paramsOrCallback) "function"
              then paramsOrCallback else VUndef in
    let* pid := read "payload.id" (get payload "id") in
    let* pmethod := read "payload.method" (get payload "method") in
    let* pparams := read "payload.params" (get payload "params") in
    let* p0 := callHost callHandler [("id", js_coalesce pid (VNum id));
                                     ("method", pmethod); ("params", pparams)] in
    let* p1 := then_ p0 (envelope_result payload) in
    let* p := catch_ p1 (envelope_error payload) in
    if truthy cb then
      let* q := then_ p (fun r => call cb [VNull; r]) in
      let* _ := catch_ q (fun e => call cb [e; VNull]) in
      ret Nothing
    else ret (APromise p).

Definition sendAsync (callHandler : option Bridge) (id : Z) (payload cb : JsVal)
  : M unit :=
  let* pid := read "payload.id" (get payload "id") in
  let* pmethod := read "payload.method" (get payload "method") in
  let* pparams := read "payload.params" (get payload "params") in
  let* p0 := callHost callHandler [("id", js_coalesce pid (VNum id));
                                   ("method", pmethod); ("params", pparams)] in
  let* p1 := then_ p0 (envelope_result payload) in
  let* p := catch_ p1 (envelope_error payload) in
  let* q := then_ p (fun r => call cb [VNull; r]) in
  let* _ := catch_ q (fun e => call cb [e; VNull]) in
  ret tt.

(** The promise [sendAsync] builds last and keeps no reference to, that of
    [.catch(e => cb(e, null))]: a rejection of it is handled by nobody. *)
Definition sendAsync_last (callHandler : option Bridge) (id : Z) (payload cb : JsVal)
  : M (Settled unit) :=
  let* pid := read "payload.id" (get payload "id") in
  let* pmethod := read "payload.method" (get payload "method") in
  let* pparams := read "payload.params" (get payload "params") in
  let* p0 := callHost callHandler [("id", js_coalesce pid (VNum id));
                                   ("method", pmethod); ("params", pparams)] in
  let* p1 := then_ p0 (envelope_result payload) in
  let* p := catch_ p1 (envelope_error payload) in
  let* q := then_ p (fun r => call cb [VNull; r]) in
  catch_ q (fun e => call cb [e; VNull]).

(** The state a new provider starts in. *)
Definition initial : State :=
  mkState (js_coalesce (cfg_initialSelectedAddress cfg) VNull)
          (js_coalesce (cfg_initialChainId cfg) VNull)
          ∅ 0 [] [] [].

(** *** Vocabulary of the properties *)

(** What [callHost] decodes the raw reply to. *)
Definition decoded (raw resp : JsVal) : Prop :=
  match raw with
  | VStr text => JSON_parse text = Normal resp
  | _ => resp = raw
  end.

(** The own properties of the error [callHost] builds from the [error] field
    of a host response. *)
Definition host_error (error : JsVal) : list (string * JsVal) :=
  [("message", VStr (String_ (js_or (field error "message") (VStr "Provider error"))));
   ("code", js_coalesce (field error "code") (VNum (-32603)))]
  ++ (if strict_eq (field error "data") VUndef then [] else [("data", field error "data")]).

(** The envelope built when the bridge is missing. *)
Definition unavailable_envelope (payload : JsVal) (s : State) : JsVal :=
  VObj (Own (1 + allocated s))
    [("id", field payload "id"); ("jsonrpc", VStr "2.0");
     ("error", VObj (Own (2 + allocated s))
        [("code", VNum (-32603)); ("message", VStr "Bridge not available");
         ("data", VUndef)])].

(** [s'] differs from [s] only in what the page saw after it. *)
Definition page_only (s s' : State) : Prop :=
  _selectedAddress s' = _selectedAddress s /\ _chainId s' = _chainId s
  /\ _m s' = _m s /\ allocated s' = allocated s /\ emitted s' = emitted s.

(** An event name that reads a member of [Object.prototype] in [_m]. *)
Definition inherited (event : string) : bool := bool_decide (event ∈ Object_prototype).

(** The handlers registered for [event]. *)
Definition handlers (s : State) (event : string) : list nat :=
  match slot (_m s) event with
  | Handlers hs => hs
  | _ => []
  end.

(** A selected address is a string or [null]. *)
Definition is_address (v : JsVal) : bool :=
  match v with
  | VNull | VStr _ => true
  | _ => false
  end.

(** The lower-cased address, [null] taken as the empty string. *)
Definition lowered (v : JsVal) : string :=
  toLowerCase match v with VStr a => a | _ => "" end.

(** The candidate address of an accounts array: its first element, or [null]
    when there is none or it is empty. *)
Definition candidate (accounts : list string) : JsVal :=
  match accounts with
  | a :: _ => if String.eqb a "" then VNull else VStr a
  | [] => VNull
  end.

(** The accounts an ['accountsChanged'] event announces for an address. *)
Definition announced (next : JsVal) : list JsVal := if truthy next then [next] else [].

(** The provider's state after the delivery. *)
Definition deliver (s : State) (d : Delivery) : State :=
  match path d with
  | ByRequest callHandler id method params => snd (request callHandler id method params s)
  | ByHost => snd (_emitFromHost "accountsChanged" (accounts_array d) s)
  end.

(** The delivery is an account update: a request for one of the two account
    methods that the bridge fulfils with the array, or a push. *)
Definition delivered (d : Delivery) : Prop :=
  match path d with
  | ByRequest callHandler id method params =>
      (method = VStr "eth_requestAccounts" \/ method = VStr "eth_accounts")
      /\ forall s,
           fst (callHost callHandler
                  [("id", VNum id); ("method", method); ("params", params)] s)
           = Normal (Fulfilled (accounts_array d))
  | ByHost => True
  end.

(** The payloads of the ['accountsChanged'] events a sequence of updates is
    to produce from the address [previous]: one for each update whose
    lower-cased candidate differs from the lower-cased address before it. *)
Fixpoint changes (previous : JsVal) (updates : list (list string)) : list (list JsVal) :=
  match updates with
  | [] => []
  | accounts :: rest =>
      (if String.eqb (lowered (candidate accounts)) (lowered previous) then []
       else [announced (candidate accounts)])
      ++ changes (candidate accounts) rest
  end.

(** The accounts in the payload of an emission. *)
Definition payload_accounts (e : Emission) : list JsVal :=
  match snd e with
  | [VArr _ elems] => elems
  | _ => []
  end.

(** The state after the call, whether it returns or throws. *)
Definition register (s : State) (op : Registration) : State :=
  snd (match op with
       | Add event handler => on event handler
       | Remove event handler => removeListener event handler
       end s).

(** No set of handlers holds a handler twice. *)
Definition sets_ok (s : State) : Prop :=
  forall event hs, _m s !! event = Some hs -> NoDup hs.

(** How many of the calls are calls of [h]. *)
Definition times (h : nat) (calls : list Invocation) : nat :=
  length (filter (fun c => fst c = h) calls).

(** The errors the handlers [hs] throw when called in turn with [args], the
    page having seen the calls [history] before. *)
Fixpoint thrown (args : list JsVal) (hs : list nat) (history : list Invocation)
  : list JsVal :=
  match hs with
  | [] => []
  | h :: rest =>
      match page history h args with
      | Some e => [e]
      | None => []
      end ++ thrown args rest (history ++ [(h, args)])
  end.

(** No member of [Object.prototype] is shadowed by a set of handlers. *)
Definition prototype_intact (s : State) : Prop :=
  forall event, inherited event = true -> _m s !! event = None.

(** [request] reads an address or a chain id off the result. *)
Definition infers (method result : JsVal) : bool :=
  (strict_eq method (VStr "eth_requestAccounts") || strict_eq method (VStr "eth_accounts"))
    && isArray result
  || strict_eq method (VStr "eth_chainId") && String.eqb (typeof result) "string".

(** The state after the call, however it ends. *)
Definition perform (s : State) (op : Operation) : State :=
  match op with
  | Request callHandler id method params => snd (request callHandler id method params s)
  | Enable callHandler id => snd (enable callHandler id s)
  | Send callHandler id a b => snd (send callHandler id a b s)
  | SendAsync callHandler id payload cb => snd (sendAsync callHandler id payload cb s)
  | EmitFromHost event payload => snd (_emitFromHost event payload s)
  | On event handler => snd (on event handler s)
  | RemoveListener event handler => snd (removeListener event handler s)
  end.

(** The accounts the call delivers have a first element without
    [toLowerCase] of its own: the array the bridge fulfils a request with,
    the payload the host pushes. *)
Definition plain_reply (callHandler : option Bridge) (id : Z) (method params : JsVal) : Prop :=
  forall s r elems,
    fst (callHost callHandler [("id", VNum id); ("method", method); ("params", params)] s)
    = Normal (Fulfilled (VArr r elems)) ->
    no_own_method (js_or (default VUndef (head elems)) VNull) = true.

Definition plain_operation (op : Operation) : Prop :=
  match op with
  | Request callHandler id method params => plain_reply callHandler id method params
  | Enable callHandler id => plain_reply callHandler id (VStr "eth_requestAccounts") VUndef
  | Send callHandler id a b =>
      String.eqb (typeof a) "string" = true -> plain_reply callHandler id a b
  | EmitFromHost event payload =>
      event = "accountsChanged" -> no_own_method (js_or (first_of payload) VNull) = true
  | SendAsync _ _ _ _ | On _ _ | RemoveListener _ _ => True
  end.

(** *** [emit] over the live Set

    [Set.prototype.forEach] reads the Set again after every call: a handler
    added while [emit] runs is visited too, one removed before its turn is
    not, and one removed and added again stands at the end of the Set and
    is visited from there.  Here the handlers call [provider.on] and
    [provider.removeListener] while they run, as [reentry] says, and
    nothing else of the provider. *)

(** The registration [op] adds to, or removes from, the set of [event]. *)
Definition adds (event : string) (op : Registration) : bool :=
  match op with
  | Add e _ => bool_decide (e = event)
  | Remove _ _ => false
  end.

Definition removes (event : string) (op : Registration) : bool :=
  match op with
  | Add _ _ => false
  | Remove e _ => bool_decide (e = event)
  end.

(** One call [op] of a handler that runs inside [emit(event, ...)]: what it
    does to the provider, and to the entries [forEach] has still to visit. *)
Definition reenter (event : string) (walk : State * list nat) (op : Registration)
  : State * list nat :=
  (register (fst walk) op,
   match op with
   | Add e h =>
       if bool_decide (e = event) && negb (bool_decide (h ∈ handlers (fst walk) event))
       then snd walk ++ [h]
       else snd walk
   | Remove e h =>
       if bool_decide (e = event) then Set_delete (snd walk) h else snd walk
   end).

(** [set.forEach(fn => { try { fn(...args); } catch (e) { console.error(e); } })]
    on the Set of [event], whose entries [rest] are still to visit: the
    entries left and the state after at most [fuel] calls of handlers.  The
    walk has ended when no entry is left. *)
Fixpoint forEach_live (fuel : nat) (event : string) (args : list JsVal)
    (rest : list nat) (s : State) : list nat * State :=
  match fuel, rest with
  | S fuel', fn :: rest' =>
      let history := invoked s in
      let walk := fold_left (reenter event) (reentry history fn args)
                            (snd (record_call (fn, args) s), rest') in
      forEach_live fuel' event args (snd walk)
        match page history fn args with
        | None => fst walk
        | Some e => snd (console_error_ e (fst walk))
        end
  | _, _ => (rest, s)
  end.

(** [emit(event, ...args)] with such handlers; [None] when the walk has not
    ended after [fuel] calls. *)
Definition Emitter_emit_live (fuel : nat) (event : string) (args : list JsVal) (s : State)
  : option (Completion unit * State) :=
  let s1 := snd (record_emit (event, args) s) in
  match slot (_m s1) event with
  | Handlers hs =>
      match forEach_live fuel event args hs s1 with
      | ([], s') => Some (Normal tt, s')
      | _ => None
      end
  | Missing => Some (Normal tt, s1)
  | Inherited => Some (TypeError "forEach is not a function" s1)
  end.

(** No handler registers a handler for [event] while it runs with [args];
    none removes one. *)
Definition none_added (event : string) (args : list JsVal) : Prop :=
  forall history fn, forallb (fun op => negb (adds event op)) (reentry history fn args) = true.

Definition none_removed (event : string) (args : list JsVal) : Prop :=
  forall history fn, forallb (fun op => negb (removes event op)) (reentry history fn args) = true.

(** In an [emit(event, ...args)] that starts in [s], no handler registers
    for [event] a handler the emit has called: whatever handlers [called]
    it has called before it calls [fn], [fn] registers neither itself nor
    one of them. *)
Definition none_readded (event : string) (args : list JsVal) (s : State) : Prop :=
  forall (called : list nat) (fn h : nat),
    Add event h ∈ reentry (invoked s ++ ((fun h => (h, args)) <$> called)) fn args ->
    h <> fn /\ h ∉ called.

(** ** Properties *)

(** Equations of the monad and of promises. *)
Lemma bind_Normal {A B} (m : M A) (k : A -> M B) (a : A) (s s' : State) :
  m s = (Normal a, s') -> bind m k s = k a s'.
Proof. unfold bind. intros ->. reflexivity. Qed.

Lemma bind_Throw {A B} (m : M A) (k : A -> M B) (e : JsVal) (s s' : State) :
  m s = (Throw e, s') -> bind m k s = (Throw e, s').
Proof. unfold bind. intros ->. reflexivity. Qed.

Lemma then_Normal {A B} (f : A -> M B) (a : A) (b : B) (s s' : State) :
  f a s = (Normal b, s') -> then_ (Fulfilled a) f s = (Normal (Fulfilled b), s').
Proof. unfold then_. intros ->. reflexivity. Qed.

Lemma then_Throw {A B} (f : A -> M B) (a : A) (e : JsVal) (s s' : State) :
  f a s = (Throw e, s') -> then_ (Fulfilled a) f s = (Normal (Rejected e), s').
Proof. unfold then_. intros ->. reflexivity. Qed.

Lemma catch_Normal {A} (f : JsVal -> M A) (e : JsVal) (b : A) (s s' : State) :
  f e s = (Normal b, s') -> catch_ (Rejected e) f s = (Normal (Fulfilled b), s').
Proof. unfold catch_. intros ->. reflexivity. Qed.

Lemma catch_Throw {A} (f : JsVal -> M A) (e e' : JsVal) (s s' : State) :
  f e s = (Throw e', s') -> catch_ (Rejected e) f s = (Normal (Rejected e'), s').
Proof. unfold catch_. intros ->. reflexivity. Qed.

Lemma array_allocated (elems : list JsVal) (s : State) :
  array elems s = (Normal (VArr (Own (allocated s)) elems), allocate 1 s).
Proof. reflexivity. Qed.

Lemma get_field (v : JsVal) (name : string) (x : JsVal) :
  get v name = Some x -> field v name = x.
Proof. unfold field. intros ->. reflexivity. Qed.

Lemma truthy_get (v : JsVal) (name : string) :
  truthy v = true -> get v name = Some (field v name).
Proof. destruct v; simpl; try discriminate; reflexivity. Qed.

Lemma get_truthy (v x : JsVal) (name : string) :
  get v name = Some x -> truthy x = true -> truthy v = true.
Proof. destruct v; simpl; intros H; inversion H; subst; try discriminate; auto. Qed.

(** The reaction of [callHost] on a response with a set [error] field. *)
Lemma callHost_then_error (raw resp error : JsVal) (s : State) :
  decoded raw resp -> get resp "error" = Some error -> truthy error = true ->
  callHost_then raw s = (Throw (VObj (Own (allocated s)) (host_error error)), allocate 1 s).
Proof.
  intros Hdec Herr Htrue.
  assert (Hresp : truthy resp = true) by (eapply get_truthy; eauto).
  assert (Hparse : (match raw with VStr text => lift (JSON_parse text) | _ => ret raw end) s
                   = (Normal resp, s)).
  { destruct raw; simpl in Hdec; subst; try reflexivity.
    unfold lift. rewrite Hdec. reflexivity. }
  unfold callHost_then, bind at 1. rewrite Hparse, Hresp, Herr. cbn.
  rewrite Htrue, !(truthy_get error _ Htrue). cbn.
  unfold host_error.
  destruct (strict_eq (field error "data") VUndef); reflexivity.
Qed.

Lemma callHost_error (h : Bridge) (payload : list (string * JsVal)) (raw resp error : JsVal)
    (s : State) :
  h BRIDGE (JSON_stringify payload) = Resolves raw ->
  decoded raw resp -> get resp "error" = Some error -> truthy error = true ->
  callHost (Some h) payload s
  = (Normal (Rejected (VObj (Own (allocated s)) (host_error error))), allocate 1 s).
Proof.
  intros Hreply Hdec Herr Htrue. unfold callHost. rewrite Hreply.
  apply then_Throw, callHost_then_error with (resp := resp); assumption.
Qed.

(** With no bridge channel in the page, the body of [request] returns a
    promise rejected with the error of [callHost]. *)
Lemma request_bridge_unavailable (id : Z) (method params : JsVal) (s : State) :
  request None id method params s
  = (Normal (Rejected (VObj (Own (allocated s))
                         [("message", VStr "Bridge not available");
                          ("code", VNum (-32603))])),
     allocate 1 s).
Proof. reflexivity. Qed.

(** C3, amended. With no bridge channel in the page, every call of [request]
    whose argument is not [null] (an object, any other value, or no
    argument) returns normally a promise that is rejected, never fulfilled,
    with an error whose code is -32603 and whose message is 'Bridge not
    available'; the state of the provider is untouched. *)
Theorem request_unavailable (id : Z) (arg : JsVal) (s : State) :
  arg <> VNull ->
  provider_request None id arg s
  = (Normal (Rejected (VObj (Own (allocated s))
                         [("message", VStr "Bridge not available");
                          ("code", VNum (-32603))])),
     allocate 1 s).
Proof.
  intros Harg. unfold provider_request.
  destruct arg; try congruence; cbn [get read]; apply request_bridge_unavailable.
Qed.

(** C4, amended. For every decoded host response whose [error] field is set,
    [request] is rejected, never fulfilled, with an error whose code is the
    host's [error.code], or -32603 when that is absent or null, whose
    message is the host's [error.message] when that is not empty, and
    'Provider error' when it is empty or absent, and which has a [data]
    property exactly when the host's [error.data] is not undefined. *)
Theorem request_host_error (h : Bridge) (id : Z) (method params raw resp error : JsVal)
    (s : State) :
  h BRIDGE (JSON_stringify [("id", VNum id); ("method", method); ("params", params)])
    = Resolves raw ->
  decoded raw resp ->
  get resp "error" = Some error ->
  truthy error = true ->
  request (Some h) id method params s
  = (Normal (Rejected (VObj (Own (allocated s)) (host_error error))), allocate 1 s).
Proof.
  intros Hreply Hdec Herr Htrue.
  unfold request.
  rewrite (bind_Normal _ _ _ _ _ (callHost_error h _ raw resp error s Hreply Hdec Herr Htrue)).
  reflexivity.
Qed.

Lemma callHost_result (h : Bridge) (payload : list (string * JsVal)) (raw resp : JsVal)
    (s : State) :
  h BRIDGE (JSON_stringify payload) = Resolves raw ->
  decoded raw resp -> truthy resp = true -> truthy (field resp "error") = false ->
  callHost (Some h) payload s = (Normal (Fulfilled (field resp "result")), s).
Proof.
  intros Hreply Hdec Hresp Herr. unfold callHost. rewrite Hreply.
  apply then_Normal. unfold callHost_then.
  assert (Hparse : (match raw with VStr text => lift (JSON_parse text) | _ => ret raw end) s
                   = (Normal resp, s)).
  { destruct raw; simpl in Hdec; subst; try reflexivity.
    unfold lift. rewrite Hdec. reflexivity. }
  rewrite (bind_Normal _ _ _ _ _ Hparse), Hresp.
  rewrite !(truthy_get resp _ Hresp). cbn. rewrite Herr. reflexivity.
Qed.

Lemma own_prop_host_error_code (error : JsVal) :
  own_prop (host_error error) "code" = Some (js_coalesce (field error "code") (VNum (-32603))).
Proof. reflexivity. Qed.

Lemma own_prop_host_error_message (error : JsVal) :
  own_prop (host_error error) "message"
  = Some (VStr (String_ (js_or (field error "message") (VStr "Provider error")))).
Proof. reflexivity. Qed.

Lemma own_prop_host_error_data (error : JsVal) :
  default VUndef (own_prop (host_error error) "data") = field error "data".
Proof.
  unfold host_error. cbn.
  destruct (field error "data"); reflexivity.
Qed.

Lemma js_coalesce_number (v : JsVal) (z : Z) :
  js_coalesce (js_coalesce v (VNum z)) (VNum z) = js_coalesce v (VNum z).
Proof. destruct v; reflexivity. Qed.

(** The envelope [send] and [sendAsync] build from a rejected bridge call. *)
Lemma envelope_error_host (r : Ref) (props : list (string * JsVal)) (r' : Ref)
    (error : JsVal) (s : State) :
  envelope_error (VObj r props) (VObj r' (host_error error)) s
  = (Normal (VObj (Own (allocated s))
       [("id", field (VObj r props) "id"); ("jsonrpc", VStr "2.0");
        ("error", VObj (Own (1 + allocated s))
           [("code", js_coalesce (field error "code") (VNum (-32603)));
            ("message", VStr (String_ (js_or (field error "message") (VStr "Provider error"))));
            ("data", field error "data")])]),
     allocate 2 s).
Proof.
  unfold envelope_error. cbn -[host_error].
  rewrite own_prop_host_error_code, own_prop_host_error_message, own_prop_host_error_data.
  cbn. rewrite js_coalesce_number. reflexivity.
Qed.

(** C5. [send] with a payload object and no callback returns a promise of an
    envelope that echoes the caller's [id] and carries ['2.0'] as [jsonrpc]:
    when the host's response has no error it carries the host's [result],
    and when it has one it carries [error: {code, message, data}] taken from
    the host's error.  So [send({id:7, method:'eth_chainId'})] gives
    [{id:7, jsonrpc:'2.0', result:'0x1'}] when the host returns ['0x1']. *)
Theorem send_envelope (h : Bridge) (id : Z) (r : Ref) (props : list (string * JsVal))
    (paramsOrCallback raw resp : JsVal) (s : State) :
  let payload := VObj r props in
  String.eqb (typeof paramsOrCallback) "function" = false ->
  h BRIDGE (JSON_stringify [("id", js_coalesce (field payload "id") (VNum id));
                            ("method", field payload "method");
                            ("params", field payload "params")]) = Resolves raw ->
  decoded raw resp ->
  truthy resp = true ->
  send (Some h) id payload paramsOrCallback s
  = if truthy (field resp "error") then
      (Normal (APromise (Fulfilled (VObj (Own (1 + allocated s))
         [("id", field payload "id"); ("jsonrpc", VStr "2.0");
          ("error", VObj (Own (2 + allocated s))
             [("code", js_coalesce (field (field resp "error") "code") (VNum (-32603)));
              ("message", VStr (String_ (js_or (field (field resp "error") "message")
                                                (VStr "Provider error"))));
              ("data", field (field resp "error") "data")])]))),
       allocate 3 s)
    else
      (Normal (APromise (Fulfilled (VObj (Own (allocated s))
         [("id", field payload "id"); ("jsonrpc", VStr "2.0");
          ("result", field resp "result")]))),
       allocate 1 s).
Proof.
  intros payload Hcb Hreply Hdec Hresp.
  unfold send. rewrite Hcb.
  change (String.eqb (typeof payload) "string") with false. cbv iota.
  change (get payload "id") with (Some (field payload "id")).
  change (get payload "method") with (Some (field payload "method")).
  change (get payload "params") with (Some (field payload "params")).
  cbn [read]. unfold bind at 1 2 3, ret at 1 2 3.
  destruct (truthy (field resp "error")) eqn:Herr.
  - rewrite (bind_Normal _ _ _ _ _
      (callHost_error h _ raw resp _ s Hreply Hdec (truthy_get resp "error" Hresp) Herr)).
    unfold bind at 1, then_ at 1.
    unfold bind at 1, catch_ at 1.
    unfold payload. rewrite envelope_error_host. reflexivity.
  - rewrite (bind_Normal _ _ _ _ _ (callHost_result h _ raw resp s Hreply Hdec Hresp Herr)).
    reflexivity.
Qed.


(** *** Code that leaves the provider alone *)

Lemma same_provider_refl (s : State) : same_provider s s.
Proof. repeat split. Qed.

Lemma same_provider_trans (s1 s2 s3 : State) :
  same_provider s1 s2 -> same_provider s2 s3 -> same_provider s1 s3.
Proof.
  unfold same_provider. intros (A1 & C1 & M1 & E1) (A2 & C2 & M2 & E2).
  repeat split; congruence.
Qed.

Lemma frames_ret {A} (a : A) : frames (ret a).
Proof. intros s. apply same_provider_refl. Qed.

Lemma frames_throw {A} (e : JsVal) : frames (@throw A e).
Proof. intros s. apply same_provider_refl. Qed.

Lemma frames_lift {A} (c : Completion A) : frames (lift c).
Proof. intros s. apply same_provider_refl. Qed.

Lemma frames_gets {A} (f : State -> A) : frames (gets f).
Proof. intros s. apply same_provider_refl. Qed.

Lemma frames_fresh : frames fresh.
Proof. intros s. repeat split. Qed.

Lemma frames_record_call (c : Invocation) : frames (record_call c).
Proof. intros s. repeat split. Qed.

Lemma frames_bind {A B} (m : M A) (k : A -> M B) :
  frames m -> (forall a, frames (k a)) -> frames (bind m k).
Proof.
  intros Hm Hk s. unfold bind. specialize (Hm s).
  destruct (m s) as [[a | e] s']; simpl in *; auto.
  eapply same_provider_trans; [exact Hm | apply Hk].
Qed.

Lemma frames_then {A B} (p : Settled A) (f : A -> M B) :
  (forall a, frames (f a)) -> frames (then_ p f).
Proof.
  intros Hf s. unfold then_. destruct p as [a | e |]; try apply same_provider_refl.
  specialize (Hf a s). destruct (f a s) as [[b | e] s']; exact Hf.
Qed.

Lemma frames_catch {A} (p : Settled A) (f : JsVal -> M A) :
  (forall e, frames (f e)) -> frames (catch_ p f).
Proof.
  intros Hf s. unfold catch_. destruct p as [a | e |]; try apply same_provider_refl.
  specialize (Hf e s). destruct (f e s) as [[b | e'] s']; exact Hf.
Qed.

Create HintDb frame.
#[local] Hint Resolve frames_ret frames_throw frames_lift frames_gets frames_fresh
  frames_record_call frames_then frames_catch : frame.
#[local] Hint Extern 2 (frames (bind _ _)) => apply frames_bind; [| intro] : frame.
#[local] Hint Extern 3 (frames (if ?b then _ else _)) => destruct b : frame.
#[local] Hint Extern 3 (frames (match ?x with _ => _ end)) => destruct x : frame.

Lemma frames_object (props : list (string * JsVal)) : frames (object props).
Proof. unfold object. auto with frame. Qed.
#[local] Hint Resolve frames_object : frame.

Lemma frames_TypeError {A} (what : string) : frames (@TypeError A what).
Proof. unfold TypeError. auto with frame. Qed.
#[local] Hint Resolve frames_TypeError : frame.

Lemma frames_read (what : string) (o : option JsVal) : frames (read what o).
Proof. unfold read. auto with frame. Qed.
#[local] Hint Resolve frames_read : frame.

Lemma frames_call (v : JsVal) (args : list JsVal) : frames (call v args).
Proof. unfold call, call_fn. auto 8 with frame. Qed.
#[local] Hint Resolve frames_call : frame.

Lemma frames_callHost_then (raw : JsVal) : frames (callHost_then raw).
Proof. unfold callHost_then, new_Error. auto 12 with frame. Qed.
#[local] Hint Resolve frames_callHost_then : frame.

Lemma frames_callHost (callHandler : option Bridge) (payload : list (string * JsVal)) :
  frames (callHost callHandler payload).
Proof. unfold callHost, new_Error. auto 8 with frame. Qed.
#[local] Hint Resolve frames_callHost : frame.

Lemma frames_envelope_result (payload result : JsVal) :
  frames (envelope_result payload result).
Proof. unfold envelope_result. auto 8 with frame. Qed.

Lemma frames_envelope_error (payload err : JsVal) : frames (envelope_error payload err).
Proof. unfold envelope_error. auto 12 with frame. Qed.
#[local] Hint Resolve frames_envelope_result frames_envelope_error : frame.

Lemma frames_sendAsync (callHandler : option Bridge) (id : Z) (payload cb : JsVal) :
  frames (sendAsync callHandler id payload cb).
Proof. unfold sendAsync. auto 20 with frame. Qed.

(** C7. The payload form of [send] (a first argument that is not a string)
    and [sendAsync] leave [selectedAddress] and [chainId] as they were and
    call [emit] for no event, for every payload, every second argument and
    every behaviour of the bridge, also where the call throws. *)
Theorem send_payload_frame (callHandler : option Bridge) (id : Z)
    (payload paramsOrCallback : JsVal) (s : State) :
  String.eqb (typeof payload) "string" = false ->
  same_provider s (snd (send callHandler id payload paramsOrCallback s))
  /\ same_provider s (snd (sendAsync callHandler id payload paramsOrCallback s)).
Proof.
  intros Hpayload. split; [| apply frames_sendAsync].
  revert s. change (frames (send callHandler id payload paramsOrCallback)).
  unfold send. rewrite Hpayload. auto 20 with frame.
Qed.

(** *** What a call of [emit] does *)

(** Each handler is called once, in order, whatever the handlers before it
    did; nothing is thrown to the caller. *)
Lemma forEach_handlers (args : list JsVal) (hs : list nat) (s : State) :
  exists s',
    forEach hs (fun fn => try_catch (call_fn fn args) (fun e => console_error_ e)) s
    = (Normal tt, s')
    /\ page_only s s'
    /\ invoked s' = invoked s ++ ((fun h => (h, args)) <$> hs).
Proof.
  revert s. induction hs as [| h hs IH]; intros s.
  - exists s. cbn. rewrite app_nil_r. repeat split.
  - cbn [forEach].
    set (s1 := mkState (_selectedAddress s) (_chainId s) (_m s) (allocated s) (emitted s)
                       (invoked s ++ [(h, args)]) (console_error s)).
    assert (Hcall : exists s2,
      try_catch (call_fn h args) (fun e => console_error_ e) s = (Normal tt, s2)
      /\ page_only s s2 /\ invoked s2 = invoked s ++ [(h, args)]).
    { unfold try_catch, call_fn, bind, gets, record_call. cbn.
      destruct (page (invoked s) h args) as [e |]; cbn;
        eexists; (split; [reflexivity |]); repeat split. }
    destruct Hcall as (s2 & Hs2 & Hframe & Hinv).
    destruct (IH s2) as (s' & Hs' & Hframe' & Hinv').
    exists s'. rewrite (bind_Normal _ _ _ _ _ Hs2). split; [exact Hs' |].
    split.
    + unfold page_only in *. intuition congruence.
    + rewrite Hinv', Hinv, fmap_cons, <- app_assoc. reflexivity.
Qed.

Lemma slot_not_inherited (m : gmap string (list nat)) (event : string) :
  inherited event = false -> slot m event <> Inherited.
Proof.
  unfold slot, inherited. intros ->. destruct (m !! event); discriminate.
Qed.

(** [emit] of an event that is no member of [Object.prototype] returns
    normally; it is recorded once and the handlers registered for the event
    are called once each. *)
Lemma Emitter_emit_slot (event : string) (args : list JsVal) (s : State) :
  slot (_m s) event <> Inherited ->
  exists s',
    Emitter_emit event args s = (Normal tt, s')
    /\ _selectedAddress s' = _selectedAddress s /\ _chainId s' = _chainId s
    /\ _m s' = _m s /\ allocated s' = allocated s
    /\ emitted s' = emitted s ++ [(event, args)]
    /\ invoked s' = invoked s ++ ((fun h => (h, args)) <$> handlers s event).
Proof.
  intros Hslot. unfold Emitter_emit, handlers.
  set (s1 := mkState (_selectedAddress s) (_chainId s) (_m s) (allocated s)
                     (emitted s ++ [(event, args)]) (invoked s) (console_error s)).
  change (bind (record_emit (event, args)) _ s)
    with (match slot (_m s) event with
          | Handlers hs =>
              forEach hs (fun fn => try_catch (call_fn fn args) (fun e => console_error_ e))
          | Missing => ret tt
          | Inherited => TypeError "forEach is not a function"
          end s1).
  destruct (slot (_m s) event) as [| | hs]; [| congruence |].
  - exists s1. cbn. rewrite app_nil_r. repeat split.
  - destruct (forEach_handlers args hs s1) as (s' & Hs' & (A & C & Mm & N & E) & Hinv).
    exists s'. repeat split; assumption.
Qed.

Lemma Emitter_emit_returns (event : string) (args : list JsVal) (s : State) :
  inherited event = false ->
  exists s',
    Emitter_emit event args s = (Normal tt, s')
    /\ _selectedAddress s' = _selectedAddress s /\ _chainId s' = _chainId s
    /\ _m s' = _m s /\ allocated s' = allocated s
    /\ emitted s' = emitted s ++ [(event, args)]
    /\ invoked s' = invoked s ++ ((fun h => (h, args)) <$> handlers s event).
Proof. intros Hevent. apply Emitter_emit_slot, slot_not_inherited, Hevent. Qed.

(** *** A fulfilled bridge call *)

Lemma read_truthy (what : string) (v : JsVal) (name : string) (s : State) :
  truthy v = true -> read what (get v name) s = (Normal (field v name), s).
Proof. intros H. rewrite (truthy_get v name H). reflexivity. Qed.

(** The reaction of [callHost] creates an object only to throw it. *)
Lemma callHost_then_Normal (raw v : JsVal) (s s' : State) :
  callHost_then raw s = (Normal v, s') -> s' = s.
Proof.
  unfold callHost_then.
  assert (Hparse : exists c, (match raw with VStr text => lift (JSON_parse text)
                                         | _ => ret raw end) s = (c, s)).
  { destruct raw; eexists; reflexivity. }
  destruct Hparse as ([resp | e] & Hparse).
  2: { rewrite (bind_Throw _ _ _ _ _ Hparse). discriminate. }
  rewrite (bind_Normal _ _ _ _ _ Hparse).
  destruct (truthy resp) eqn:Hresp; cbn [negb]; [| intros [= _ <-]; reflexivity].
  rewrite (bind_Normal _ _ _ _ _ (read_truthy _ resp "error" s Hresp)).
  destruct (truthy (field resp "error")) eqn:Herr.
  - rewrite (bind_Normal _ _ _ _ _ (read_truthy _ _ "message" s Herr)).
    rewrite !(truthy_get (field resp "error") _ Herr).
    unfold new_Error, object. cbn. discriminate.
  - rewrite (read_truthy _ resp "result" s Hresp). intros [= _ <-]. reflexivity.
Qed.

Lemma callHost_fulfilled (callHandler : option Bridge) (payload : list (string * JsVal))
    (v : JsVal) (s : State) :
  fst (callHost callHandler payload s) = Normal (Fulfilled v) ->
  callHost callHandler payload s = (Normal (Fulfilled v), s).
Proof.
  unfold callHost. destruct callHandler as [h |]; [| discriminate].
  destruct (h BRIDGE (JSON_stringify payload)) as [raw | e | | e]; try discriminate.
  unfold then_.
  destruct (callHost_then raw s) as [[a | e] s'] eqn:Hthen; cbn; try discriminate.
  intros [= ->]. rewrite (callHost_then_Normal _ _ _ _ Hthen). reflexivity.
Qed.

(** What follows when [request] gets the result [result] from the bridge. *)
Lemma request_fulfilled (callHandler : option Bridge) (id : Z) (method params result : JsVal)
    (s : State) :
  fst (callHost callHandler [("id", VNum id); ("method", method); ("params", params)] s)
    = Normal (Fulfilled result) ->
  request callHandler id method params s = then_ (Fulfilled result) (request_then method) s.
Proof.
  intros H. unfold request.
  exact (bind_Normal _ (fun p => then_ p (request_then method)) _ _ _
           (callHost_fulfilled _ _ _ _ H)).
Qed.

(** C10. [_emitFromHost('chainChanged', value)] stores every value as the
    chain id, a string or not, and calls [emit('chainChanged', value)]
    exactly when [value !== chainId] held before; [request] with method
    ['eth_chainId'] does the same when the bridge's result is a string and
    leaves the state untouched when it is not. *)
Theorem chain_change_paths (value : JsVal) (s : State) :
  (exists s',
     _emitFromHost "chainChanged" value s = (Normal tt, s')
     /\ _chainId s' = value
     /\ _selectedAddress s' = _selectedAddress s
     /\ emitted s' = emitted s
                     ++ change (strict_eq value (_chainId s)) ("chainChanged", [value]))
  /\ (forall callHandler id params,
        fst (callHost callHandler
               [("id", VNum id); ("method", VStr "eth_chainId"); ("params", params)] s)
          = Normal (Fulfilled value) ->
        if String.eqb (typeof value) "string" then
          exists s',
            request callHandler id (VStr "eth_chainId") params s
              = (Normal (Fulfilled value), s')
            /\ _chainId s' = value
            /\ _selectedAddress s' = _selectedAddress s
            /\ emitted s' = emitted s
                  ++ change (strict_eq value (_chainId s)) ("chainChanged", [value])
        else
          request callHandler id (VStr "eth_chainId") params s
            = (Normal (Fulfilled value), s)).
Proof.
  assert (Hhost : exists s',
     _emitFromHost "chainChanged" value s = (Normal tt, s')
     /\ _chainId s' = value
     /\ _selectedAddress s' = _selectedAddress s
     /\ emitted s' = emitted s
                     ++ change (strict_eq value (_chainId s)) ("chainChanged", [value])).
  { unfold _emitFromHost. cbn [String.eqb Ascii.eqb Bool.eqb].
    unfold bind at 1 2, gets at 1, set_chainId at 1. cbn [_chainId].
    destruct (strict_eq value (_chainId s)); cbn [negb change].
    - eexists. split; [reflexivity |]. cbn. rewrite app_nil_r. auto.
    - unfold bind at 1, gets at 1. cbn [_chainId].
      match goal with |- context [Emitter_emit ?e ?a ?st] =>
        destruct (Emitter_emit_returns e a st eq_refl) as (s' & -> & A & C & _ & _ & E & _)
      end.
      exists s'. cbn in *. auto. }
  split; [exact Hhost |].
  intros callHandler id params Hcall.
  rewrite (request_fulfilled _ _ _ _ _ _ Hcall).
  destruct (String.eqb (typeof value) "string") eqn:Htype.
  - destruct Hhost as (s' & Hs' & Hrest). exists s'. split; [| exact Hrest].
    apply then_Normal. unfold request_then. cbn [strict_eq String.eqb Ascii.eqb Bool.eqb orb].
    rewrite Htype.
    unfold _emitFromHost in Hs'. cbn [String.eqb Ascii.eqb Bool.eqb] in Hs'.
    rewrite (bind_Normal _ _ _ _ _ Hs'). reflexivity.
  - apply then_Normal. unfold request_then. cbn [strict_eq String.eqb Ascii.eqb Bool.eqb orb].
    rewrite Htype. reflexivity.
Qed.

(** C2. From any state, when a request for ['eth_accounts'] is fulfilled by
    the bridge with an array, the provider ends in the same state as when
    the host pushes that array with [_emitFromHost('accountsChanged', ...)]:
    the same [selectedAddress] and [chainId], the same calls of [emit] with
    the same payloads, or none in both, and the same calls of handlers. *)
Theorem paths_converge (callHandler : option Bridge) (id : Z) (params : JsVal) (r : Ref)
    (accounts : list JsVal) (s : State) :
  fst (callHost callHandler
         [("id", VNum id); ("method", VStr "eth_accounts"); ("params", params)] s)
    = Normal (Fulfilled (VArr r accounts)) ->
  snd (request callHandler id (VStr "eth_accounts") params s)
  = snd (_emitFromHost "accountsChanged" (VArr r accounts) s).
Proof.
  intros Hcall. rewrite (request_fulfilled _ _ _ _ _ _ Hcall).
  unfold then_, request_then, _emitFromHost.
  cbn [strict_eq String.eqb Ascii.eqb Bool.eqb orb isArray truthy get0 read].
  unfold bind at 1.
  match goal with
  | |- _ = snd ?host => destruct host as [[[] | e] s1]; reflexivity
  end.
Qed.

(** *** Account updates *)

Lemma request_then_accounts (method : JsVal) (r : Ref) (elems : list JsVal) (s : State) :
  method = VStr "eth_requestAccounts" \/ method = VStr "eth_accounts" ->
  request_then method (VArr r elems) s
  = bind (_emitFromHost "accountsChanged" (VArr r elems)) (fun _ => ret (VArr r elems)) s.
Proof. intros [-> | ->]; reflexivity. Qed.

Lemma is_address_candidate (accounts : list string) : is_address (candidate accounts) = true.
Proof. destruct accounts as [| a rest]; [reflexivity |]. cbn. destruct (String.eqb a ""); reflexivity. Qed.

(** One pushed update: the candidate is stored as it is, and [emit] is
    called exactly when the lower-cased addresses differ. *)
Lemma accounts_pushed (r : Ref) (accounts : list string) (s : State) :
  is_address (_selectedAddress s) = true ->
  exists s',
    _emitFromHost "accountsChanged" (VArr r (VStr <$> accounts)) s = (Normal tt, s')
    /\ _selectedAddress s' = candidate accounts
    /\ emitted s' = emitted s
         ++ change (String.eqb (lowered (candidate accounts)) (lowered (_selectedAddress s)))
              ("accountsChanged", [VArr (Own (allocated s)) (announced (candidate accounts))]).
Proof.
  intros Haddr. unfold _emitFromHost.
  cbn [String.eqb Ascii.eqb Bool.eqb truthy get0 read].
  assert (Hnext : js_or (default VUndef (head (VStr <$> accounts))) VNull = candidate accounts).
  { destruct accounts as [| a rest]; [reflexivity |]. cbn. unfold js_or. cbn.
    destruct (String.eqb a ""); reflexivity. }
  unfold bind at 1, ret at 1. rewrite Hnext.
  unfold bind at 1, gets at 1.
  assert (Hl : toLowerCase_ (js_or (candidate accounts) (VStr "")) s
               = (Normal (VStr (lowered (candidate accounts))), s)).
  { destruct accounts as [| a rest]; [reflexivity |]. cbn. unfold js_or.
    destruct (String.eqb a "") eqn:Ha; cbn; [reflexivity |]. rewrite Ha. reflexivity. }
  assert (Hr : toLowerCase_ (js_or (_selectedAddress s) (VStr "")) s
               = (Normal (VStr (lowered (_selectedAddress s))), s)).
  { destruct (_selectedAddress s) as [| | | | a | | |]; try discriminate; [reflexivity |].
    unfold js_or. cbn. destruct (String.eqb a "") eqn:Ha; cbn; [| reflexivity].
    apply String.eqb_eq in Ha. subst a. reflexivity. }
  rewrite (bind_Normal _ _ _ _ _ Hl), (bind_Normal _ _ _ _ _ Hr).
  cbn [strict_eq]. unfold bind at 1, set_selectedAddress at 1.
  destruct (String.eqb (lowered (candidate accounts)) (lowered (_selectedAddress s)));
    cbn [negb change].
  - eexists. split; [reflexivity |]. cbn. rewrite app_nil_r. auto.
  - unfold bind at 1, gets at 1. cbn [_selectedAddress].
    unfold announced.
    destruct (truthy (candidate accounts));
      rewrite (bind_Normal _ _ _ _ _ (array_allocated _ _));
      match goal with |- context [Emitter_emit ?e ?a ?st] =>
        destruct (Emitter_emit_returns e a st eq_refl) as (s' & -> & A & _ & _ & _ & E & _)
      end; exists s'; cbn in *; auto.
Qed.

Lemma deliver_step (d : Delivery) (s : State) :
  delivered d -> is_address (_selectedAddress s) = true ->
  _selectedAddress (deliver s d) = candidate (accounts d)
  /\ emitted (deliver s d) = emitted s
       ++ change (String.eqb (lowered (candidate (accounts d))) (lowered (_selectedAddress s)))
            ("accountsChanged", [VArr (Own (allocated s)) (announced (candidate (accounts d)))]).
Proof.
  intros Hd Haddr.
  destruct (accounts_pushed (ref d) (accounts d) s Haddr) as (s' & Hs' & Hsel & Hem).
  unfold deliver, delivered in *.
  destruct (path d) as [callHandler id method params |].
  - destruct Hd as [Hmethod Hcall].
    rewrite (request_fulfilled _ _ _ _ _ _ (Hcall s)).
    erewrite then_Normal.
    + split; [exact Hsel | exact Hem].
    + unfold accounts_array. rewrite (request_then_accounts _ _ _ _ Hmethod).
      rewrite (bind_Normal _ _ _ _ _ Hs'). reflexivity.
  - unfold accounts_array. rewrite Hs'. split; [exact Hsel | exact Hem].
Qed.

Lemma last_cons_default {A} (x d : A) (l : list A) :
  default d (last (x :: l)) = default x (last l).
Proof.
  revert x d. induction l as [| y l IH]; intros x d; [reflexivity |].
  change (last (x :: y :: l)) with (last (y :: l)). rewrite !IH. reflexivity.
Qed.

(** C1. For every sequence of account updates, delivered as results of
    [request] for ['eth_requestAccounts'] or ['eth_accounts'] or pushed with
    [_emitFromHost('accountsChanged', ...)], from a state whose selected
    address is a string or [null]: the only calls of [emit] are for
    ['accountsChanged'], one for each update whose lower-cased candidate
    address differs from the lower-cased address selected before it ([null]
    taken as the empty string) and none for the others, and the address
    selected in the end is the last candidate in its original case. *)
Theorem account_changes (ds : list Delivery) (s : State) :
  is_address (_selectedAddress s) = true ->
  Forall delivered ds ->
  _selectedAddress (fold_left deliver ds s)
    = default (_selectedAddress s) (last ((fun d => candidate (accounts d)) <$> ds))
  /\ exists new,
       emitted (fold_left deliver ds s) = emitted s ++ new
       /\ Forall (fun e => fst e = "accountsChanged") new
       /\ payload_accounts <$> new = changes (_selectedAddress s) (accounts <$> ds).
Proof.
  intros Haddr Hds. revert s Haddr.
  induction Hds as [| d ds Hd Hds IH]; intros s Haddr.
  - split; [reflexivity |]. exists []. rewrite app_nil_r. repeat split. constructor.
  - destruct (deliver_step d s Hd Haddr) as [Hsel Hem].
    assert (Haddr' : is_address (_selectedAddress (deliver s d)) = true)
      by (rewrite Hsel; apply is_address_candidate).
    destruct (IH (deliver s d) Haddr') as (Hlast & new & Hnew & Hnames & Hpayloads).
    cbn [fold_left]. split.
    + rewrite Hlast, Hsel, fmap_cons, last_cons_default. reflexivity.
    + rewrite Hnew, Hem, <- app_assoc. eexists. split; [reflexivity |].
      rewrite fmap_cons. cbn [changes]. rewrite fmap_app, Hpayloads, Hsel.
      destruct (String.eqb (lowered (candidate (accounts d))) (lowered (_selectedAddress s)));
        cbn [change]; split; try assumption; try reflexivity.
      apply Forall_app. split; [| assumption]. repeat constructor.
Qed.

(** *** The event bus *)

Lemma Set_add_NoDup (hs : list nat) (h : nat) : NoDup hs -> NoDup (Set_add hs h).
Proof.
  intros Hhs. unfold Set_add. case_bool_decide as Hin; [assumption |].
  apply NoDup_app. repeat split; [assumption | | apply NoDup_singleton].
  intros x Hx Hx'. apply list_elem_of_singleton in Hx'. congruence.
Qed.

Lemma Set_delete_NoDup (hs : list nat) (h : nat) : NoDup hs -> NoDup (Set_delete hs h).
Proof. intros Hhs. unfold Set_delete. apply NoDup_filter, Hhs. Qed.

Lemma Set_add_twice (hs : list nat) (h : nat) : Set_add (Set_add hs h) h = Set_add hs h.
Proof.
  unfold Set_add. destruct (bool_decide (h ∈ hs)) eqn:Hin.
  - rewrite Hin. reflexivity.
  - rewrite bool_decide_eq_true_2; [reflexivity |].
    apply elem_of_app. right. apply list_elem_of_singleton. reflexivity.
Qed.

Lemma slot_Handlers (m : gmap string (list nat)) (event : string) (hs : list nat) :
  slot m event = Handlers hs <-> m !! event = Some hs.
Proof.
  unfold slot. destruct (m !! event) as [hs' |].
  - split; intros [= ->]; reflexivity.
  - split; [| discriminate]. case_bool_decide; discriminate.
Qed.

Lemma register_sets_ok (s : State) (op : Registration) : sets_ok s -> sets_ok (register s op).
Proof.
  intros Hok. unfold register.
  destruct op as [event handler | event handler];
    unfold on, removeListener, Emitter_on, Emitter_removeListener, bind, gets;
    destruct (slot (_m s) event) as [| | hs] eqn:Hslot; cbn; try exact Hok;
    intros e' hs' Hlook; cbn in Hlook; destruct (decide (event = e')) as [<- | Hne];
    try (rewrite lookup_insert_ne in Hlook by assumption; exact (Hok _ _ Hlook)).
  all: rewrite lookup_insert_eq in Hlook; injection Hlook as <-.
  - apply Set_add_NoDup, NoDup_nil_2.
  - apply Set_add_NoDup. apply slot_Handlers in Hslot. exact (Hok _ _ Hslot).
  - apply Set_delete_NoDup. apply slot_Handlers in Hslot. exact (Hok _ _ Hslot).
Qed.

Lemma registered_sets_ok (ops : list Registration) (s : State) :
  sets_ok s -> sets_ok (fold_left register ops s).
Proof.
  revert s. induction ops as [| op ops IH]; intros s Hok; [exact Hok |].
  cbn. apply IH, register_sets_ok, Hok.
Qed.

Lemma times_not_elem (args : list JsVal) (h : nat) (hs : list nat) :
  h ∉ hs -> times h ((fun x => (x, args)) <$> hs) = 0%nat.
Proof.
  unfold times. induction hs as [| x hs IH]; intros Hin; [reflexivity |].
  apply not_elem_of_cons in Hin as [Hne Hin].
  rewrite fmap_cons, filter_cons_False by (cbn; congruence). apply IH, Hin.
Qed.

Lemma times_NoDup (args : list JsVal) (h : nat) (hs : list nat) :
  NoDup hs ->
  times h ((fun x => (x, args)) <$> hs) = if bool_decide (h ∈ hs) then 1%nat else 0%nat.
Proof.
  intros Hhs. case_bool_decide as Hin; [| apply times_not_elem, Hin].
  induction Hhs as [| x hs Hx Hhs IH]; [inversion Hin |].
  unfold times in *. rewrite fmap_cons.
  destruct (decide (x = h)) as [-> | Hne].
  - rewrite filter_cons_True by reflexivity. cbn [length]. f_equal.
    apply (times_not_elem args h hs Hx).
  - rewrite filter_cons_False by (cbn; congruence).
    apply IH. apply elem_of_cons in Hin as [-> | Hin]; [congruence | exact Hin].
Qed.

Lemma on_twice (s : State) (event : string) (h : nat) :
  _m (register (register s (Add event h)) (Add event h)) = _m (register s (Add event h)).
Proof.
  unfold register, on, Emitter_on, bind, gets.
  destruct (slot (_m s) event) as [| | hs] eqn:Hslot; cbn.
  - unfold slot. rewrite lookup_insert_eq. cbn.
    rewrite insert_insert_eq, Set_add_twice. reflexivity.
  - rewrite Hslot. reflexivity.
  - unfold slot. rewrite lookup_insert_eq. cbn.
    rewrite insert_insert_eq, Set_add_twice. reflexivity.
Qed.

Lemma on_Handlers (s : State) (event : string) (h : nat) (hs : list nat) :
  slot (_m s) event = Handlers hs ->
  slot (_m (register s (Add event h))) event = Handlers (Set_add hs h).
Proof.
  intros Hslot. unfold register, on, Emitter_on, bind, gets. rewrite Hslot. cbn.
  apply slot_Handlers, lookup_insert_eq.
Qed.

Lemma elem_of_Set_add (hs : list nat) (h : nat) : h ∈ Set_add hs h.
Proof.
  unfold Set_add. case_bool_decide as Hin; [exact Hin |].
  apply elem_of_app. right. apply list_elem_of_singleton. reflexivity.
Qed.

(** What [emit] does on a registry whose sets hold no handler twice. *)
Lemma emit_each_once (event : string) (args : list JsVal) (hs : list nat) (s : State) :
  sets_ok s -> slot (_m s) event = Handlers hs ->
  exists s',
    Emitter_emit event args s = (Normal tt, s')
    /\ invoked s' = invoked s ++ ((fun h => (h, args)) <$> hs)
    /\ forall h, times h ((fun h => (h, args)) <$> hs)
                 = if bool_decide (h ∈ hs) then 1%nat else 0%nat.
Proof.
  intros Hok Hslot.
  destruct (Emitter_emit_slot event args s) as (s' & Hs' & _ & _ & _ & _ & _ & Hinv).
  { rewrite Hslot. discriminate. }
  exists s'. split; [exact Hs' |]. split.
  - rewrite Hinv. unfold handlers. rewrite Hslot. reflexivity.
  - intros h. apply times_NoDup. apply slot_Handlers in Hslot. exact (Hok _ _ Hslot).
Qed.

(** *** [emit] over the live Set *)

Lemma register_invoked (s : State) (op : Registration) :
  invoked (register s op) = invoked s.
Proof.
  unfold register.
  destruct op as [event handler | event handler];
    unfold on, removeListener, Emitter_on, Emitter_removeListener, bind, gets;
    destruct (slot (_m s) event); reflexivity.
Qed.

(** The Set of an event stays the same object; a registration adds to it or
    removes from it. *)
Lemma register_slot (s : State) (op : Registration) (event : string) (live : list nat) :
  slot (_m s) event = Handlers live ->
  slot (_m (register s op)) event
  = Handlers match op with
             | Add e h => if bool_decide (e = event) then Set_add live h else live
             | Remove e h => if bool_decide (e = event) then Set_delete live h else live
             end.
Proof.
  intros Hslot. apply slot_Handlers. pose proof Hslot as Hlook. apply slot_Handlers in Hlook.
  unfold register.
  destruct op as [e h | e h];
    unfold on, removeListener, Emitter_on, Emitter_removeListener, bind, gets;
    case_bool_decide as He.
  - subst e. rewrite Hslot. cbn. apply lookup_insert_eq.
  - destruct (slot (_m s) e); cbn; try exact Hlook;
      rewrite lookup_insert_ne by exact He; exact Hlook.
  - subst e. rewrite Hslot. cbn. apply lookup_insert_eq.
  - destruct (slot (_m s) e); cbn; try exact Hlook;
      rewrite lookup_insert_ne by exact He; exact Hlook.
Qed.

(** Handlers that add nothing to the set of [event] leave [forEach] a part
    of what it had to visit, and all of it when they remove nothing. *)
Lemma reentered (event : string) (ops : list Registration) (s : State) (rest : list nat) :
  forallb (fun op => negb (adds event op)) ops = true ->
  sublist (snd (fold_left (reenter event) ops (s, rest))) rest
  /\ invoked (fst (fold_left (reenter event) ops (s, rest))) = invoked s
  /\ (forallb (fun op => negb (removes event op)) ops = true ->
      snd (fold_left (reenter event) ops (s, rest)) = rest).
Proof.
  revert s rest. induction ops as [| op ops IH]; intros s rest Hadd.
  - cbn. repeat split; reflexivity.
  - cbn [forallb] in Hadd. apply andb_true_iff in Hadd as [Hop Hadd].
    apply negb_true_iff in Hop.
    assert (Hstep : exists rest',
      reenter event (s, rest) op = (register s op, rest')
      /\ sublist rest' rest
      /\ (removes event op = false -> rest' = rest)).
    { unfold reenter. cbn [fst snd]. destruct op as [e h | e h].
      - cbn [adds] in Hop. rewrite Hop. exists rest. repeat split; reflexivity.
      - eexists. split; [reflexivity |]. cbn [removes]. split.
        + destruct (bool_decide (e = event)); [apply sublist_filter | reflexivity].
        + intros ->. reflexivity. }
    destruct Hstep as (rest' & Hstep & Hsub1 & Hsame1).
    cbn [fold_left]. rewrite Hstep.
    destruct (IH (register s op) rest' Hadd) as (Hsub & Hinv & Hsame).
    split; [etransitivity; eassumption |].
    split; [rewrite Hinv; apply register_invoked |].
    intros Hrem. cbn [forallb] in Hrem. apply andb_true_iff in Hrem as [Hop' Hrem].
    apply negb_true_iff in Hop'. rewrite (Hsame Hrem). apply Hsame1, Hop'.
Qed.

(** The walk of [forEach] with such handlers ends; the handlers it calls
    are among those it had to visit, in their order. *)
Lemma forEach_live_walk (event : string) (args : list JsVal) :
  none_added event args ->
  forall (fuel : nat) (rest : list nat) (s : State),
    (length rest <= fuel)%nat ->
    exists s' visited,
      forEach_live fuel event args rest s = ([], s')
      /\ invoked s' = invoked s ++ ((fun h => (h, args)) <$> visited)
      /\ sublist visited rest
      /\ (none_removed event args -> visited = rest).
Proof.
  intros Hadd. induction fuel as [| fuel IH]; intros rest s Hlen.
  - destruct rest as [| fn rest]; [| cbn in Hlen; lia].
    exists s, []. cbn. rewrite app_nil_r. repeat split; reflexivity.
  - destruct rest as [| fn rest].
    { exists s, []. cbn. rewrite app_nil_r. repeat split; reflexivity. }
    cbn [forEach_live].
    destruct (reentered event (reentry (invoked s) fn args)
                (snd (record_call (fn, args) s)) rest (Hadd _ _)) as (Hsub & Hinv & Hsame).
    set (walk := fold_left (reenter event) (reentry (invoked s) fn args)
                           (snd (record_call (fn, args) s), rest)) in *.
    set (s3 := match page (invoked s) fn args with
               | None => fst walk
               | Some e => snd (console_error_ e (fst walk))
               end).
    assert (Hinv3 : invoked s3 = invoked s ++ [(fn, args)]).
    { unfold s3. destruct (page (invoked s) fn args); cbn; exact Hinv. }
    destruct (IH (snd walk) s3) as (s' & visited & Hs' & Hinv' & Hsub' & Hsame').
    { apply sublist_length in Hsub. cbn [length] in Hlen. lia. }
    exists s', (fn :: visited). split; [exact Hs' |]. split.
    { rewrite Hinv', Hinv3, fmap_cons, <- app_assoc. reflexivity. }
    split.
    { apply sublist_skip. etransitivity; eassumption. }
    intros Hrem. rewrite (Hsame' Hrem). f_equal. apply Hsame, Hrem.
Qed.

(** One call of [on] or [removeListener] by a running handler keeps what
    [forEach] has still to visit inside the Set, and apart from the handlers
    [done] that were called, when it registers none of these. *)
Lemma reenter_once (event : string) (done : list nat) (op : Registration) (s : State)
    (rest live : list nat) :
  slot (_m s) event = Handlers live ->
  (forall x, x ∈ rest -> x ∈ live) ->
  NoDup (done ++ rest) ->
  (forall h, op = Add event h -> h ∉ done) ->
  exists live',
    slot (_m (fst (reenter event (s, rest) op))) event = Handlers live'
    /\ (forall x, x ∈ snd (reenter event (s, rest) op) -> x ∈ live')
    /\ NoDup (done ++ snd (reenter event (s, rest) op))
    /\ invoked (fst (reenter event (s, rest) op)) = invoked s.
Proof.
  intros Hslot Hsub Hdup Hop. unfold reenter. cbn [fst snd].
  eexists. split; [apply register_slot, Hslot |].
  assert (Hlive : handlers s event = live) by (unfold handlers; rewrite Hslot; reflexivity).
  rewrite Hlive.
  apply NoDup_app in Hdup as (Hdone & Hapart & Hrest).
  split; [| split; [| apply register_invoked]].
  - destruct op as [e h | e h]; case_bool_decide as He; cbn [andb]; try exact Hsub.
    + unfold Set_add. case_bool_decide as Hin; cbn [negb]; [exact Hsub |].
      intros x Hx. apply elem_of_app in Hx as [Hx | Hx]; apply elem_of_app; auto.
    + intros x Hx. unfold Set_delete in *. apply list_elem_of_filter in Hx as [Hne Hx].
      apply list_elem_of_filter. auto.
  - apply NoDup_app.
    destruct op as [e h | e h]; case_bool_decide as He; cbn [andb]; auto.
    + case_bool_decide as Hin; cbn [negb]; [auto |].
      subst e. specialize (Hop h eq_refl).
      split; [exact Hdone |]. split.
      * intros x Hx Hx'. apply elem_of_app in Hx' as [Hx' | Hx'].
        -- exact (Hapart x Hx Hx').
        -- apply list_elem_of_singleton in Hx'. subst x. exact (Hop Hx).
      * apply NoDup_app. split; [exact Hrest |]. split; [| apply NoDup_singleton].
        intros x Hx Hx'. apply list_elem_of_singleton in Hx'. subst x. auto.
    + split; [exact Hdone |]. split.
      * intros x Hx Hx'. unfold Set_delete in Hx'.
        apply list_elem_of_filter in Hx' as [_ Hx']. exact (Hapart x Hx Hx').
      * apply Set_delete_NoDup, Hrest.
Qed.

Lemma reentered_once (event : string) (done : list nat) (ops : list Registration) :
  forall (s : State) (rest live : list nat),
    slot (_m s) event = Handlers live ->
    (forall x, x ∈ rest -> x ∈ live) ->
    NoDup (done ++ rest) ->
    (forall h, Add event h ∈ ops -> h ∉ done) ->
    exists live',
      slot (_m (fst (fold_left (reenter event) ops (s, rest)))) event = Handlers live'
      /\ (forall x, x ∈ snd (fold_left (reenter event) ops (s, rest)) -> x ∈ live')
      /\ NoDup (done ++ snd (fold_left (reenter event) ops (s, rest)))
      /\ invoked (fst (fold_left (reenter event) ops (s, rest))) = invoked s.
Proof.
  induction ops as [| op ops IH]; intros s rest live Hslot Hsub Hdup Hops.
  - exists live. cbn. auto.
  - cbn [fold_left].
    destruct (reenter_once event done op s rest live Hslot Hsub Hdup)
      as (live1 & Hslot1 & Hsub1 & Hdup1 & Hinv1).
    { intros h ->. apply Hops. apply elem_of_cons. left. reflexivity. }
    destruct (reenter event (s, rest) op) as [s1 rest1]. cbn [fst snd] in *.
    destruct (IH s1 rest1 live1 Hslot1 Hsub1 Hdup1) as (live' & H1 & H2 & H3 & H4).
    { intros h Hh. apply Hops. apply elem_of_cons. right. exact Hh. }
    exists live'. rewrite H4. auto.
Qed.

(** At every moment of the walk no handler has been called twice, when no
    handler registers one that was called. *)
Lemma forEach_live_once (event : string) (args : list JsVal) (s0 : State) :
  none_readded event args s0 ->
  forall (fuel : nat) (rest : list nat) (s : State) (live done : list nat),
    invoked s = invoked s0 ++ ((fun h => (h, args)) <$> done) ->
    slot (_m s) event = Handlers live ->
    (forall x, x ∈ rest -> x ∈ live) ->
    NoDup (done ++ rest) ->
    exists visited,
      invoked (snd (forEach_live fuel event args rest s))
      = invoked s0 ++ ((fun h => (h, args)) <$> visited)
      /\ NoDup visited.
Proof.
  intros Hre. induction fuel as [| fuel IH]; intros rest s live done Hinv Hslot Hsub Hdup.
  - exists done. cbn. split; [exact Hinv |]. apply NoDup_app in Hdup as (H & _). exact H.
  - destruct rest as [| fn rest].
    { exists done. cbn. split; [exact Hinv |]. apply NoDup_app in Hdup as (H & _). exact H. }
    cbn [forEach_live].
    destruct (reentered_once event (done ++ [fn]) (reentry (invoked s) fn args)
                (snd (record_call (fn, args) s)) rest live)
      as (live' & Hslot' & Hsub' & Hdup' & Hinv').
    { exact Hslot. }
    { intros x Hx. apply Hsub. apply elem_of_cons. right. exact Hx. }
    { rewrite <- app_assoc. exact Hdup. }
    { intros h Hh. rewrite Hinv in Hh. destruct (Hre done fn h Hh) as [Hne Hnot].
      intros Hin. apply elem_of_app in Hin as [Hin | Hin]; [exact (Hnot Hin) |].
      apply list_elem_of_singleton in Hin. exact (Hne Hin). }
    set (walk := fold_left (reenter event) (reentry (invoked s) fn args)
                           (snd (record_call (fn, args) s), rest)) in *.
    apply (IH (snd walk) _ live' (done ++ [fn])).
    + transitivity (invoked (fst walk)).
      { destruct (page (invoked s) fn args); reflexivity. }
      rewrite Hinv'. cbn [snd record_call invoked]. rewrite Hinv, fmap_app, app_assoc.
      reflexivity.
    + destruct (page (invoked s) fn args); exact Hslot'.
    + exact Hsub'.
    + exact Hdup'.
Qed.

(** With handlers that call nothing of the provider, [emit] over the live
    Set is [emit] over the Set as it was when [emit] was called. *)
Lemma forEach_live_quiet (event : string) (args : list JsVal) :
  (forall history fn, reentry history fn args = []) ->
  forall (fuel : nat) (hs : list nat) (s : State),
    (length hs <= fuel)%nat ->
    forEach_live fuel event args hs s
    = ([], snd (forEach hs (fun fn => try_catch (call_fn fn args)
                                        (fun e => console_error_ e)) s)).
Proof.
  intros Hquiet. induction fuel as [| fuel IH]; intros hs s Hlen.
  - destruct hs as [| fn hs]; [reflexivity | cbn in Hlen; lia].
  - destruct hs as [| fn hs]; [reflexivity |].
    cbn [forEach_live forEach]. rewrite Hquiet. cbn [fold_left fst snd].
    rewrite IH by (cbn [length] in Hlen; lia).
    unfold bind at 1, try_catch at 2, call_fn at 2, bind, gets, record_call.
    cbn [fst snd invoked].
    destruct (page (invoked s) fn args); reflexivity.
Qed.

Lemma Emitter_emit_live_quiet (event : string) (args : list JsVal) (s : State) (fuel : nat) :
  (forall history fn, reentry history fn args = []) ->
  (length (handlers s event) <= fuel)%nat ->
  Emitter_emit_live fuel event args s = Some (Emitter_emit event args s).
Proof.
  intros Hquiet Hlen. unfold Emitter_emit_live, Emitter_emit, handlers in *.
  unfold bind at 1, record_emit at 2. unfold bind at 1, gets.
  cbn [fst snd record_emit _m].
  destruct (slot (_m s) event) as [| | hs]; [reflexivity | reflexivity |].
  rewrite (forEach_live_quiet event args Hquiet) by exact Hlen.
  match goal with |- context [forEach hs ?f ?s1] =>
    destruct (forEach_handlers args hs s1) as (s' & Hs' & _) end.
  rewrite Hs'. reflexivity.
Qed.


(** *** More on the event bus *)

Lemma Set_delete_absent (hs : list nat) (h : nat) : h ∉ hs -> Set_delete hs h = hs.
Proof.
  unfold Set_delete. induction hs as [| x hs IH]; intros Hin; [reflexivity |].
  apply not_elem_of_cons in Hin as [Hne Hin].
  rewrite filter_cons_True by congruence. f_equal. apply IH, Hin.
Qed.

Lemma Set_delete_add (hs : list nat) (h : nat) :
  Set_delete (Set_add hs h) h = Set_delete hs h.
Proof.
  unfold Set_add. case_bool_decide as Hin; [reflexivity |].
  unfold Set_delete. rewrite filter_app, filter_cons_False, filter_nil, app_nil_r; auto.
Qed.

Lemma not_elem_of_Set_delete (hs : list nat) (h : nat) : h ∉ Set_delete hs h.
Proof. unfold Set_delete. intros Hin. apply list_elem_of_filter in Hin as [Hne _]. auto. Qed.

Lemma handlers_on (s : State) (event : string) (h : nat) :
  inherited event = false ->
  handlers (register s (Add event h)) event = Set_add (handlers s event) h.
Proof.
  intros Hevent. pose proof (slot_not_inherited (_m s) event Hevent) as Hslot.
  unfold handlers, register, on, Emitter_on, bind, gets.
  destruct (slot (_m s) event) as [| | hs]; [| congruence |]; cbn;
    unfold slot; rewrite lookup_insert_eq; reflexivity.
Qed.

Lemma handlers_removeListener (s : State) (event : string) (h : nat) :
  handlers (register s (Remove event h)) event = Set_delete (handlers s event) h.
Proof.
  unfold handlers, register, removeListener, Emitter_removeListener, bind, gets.
  destruct (slot (_m s) event) as [| | hs] eqn:Hslot; cbn.
  - rewrite Hslot. reflexivity.
  - rewrite Hslot. reflexivity.
  - unfold slot. rewrite lookup_insert_eq. reflexivity.
Qed.

Lemma handlers_other (s : State) (op : Registration) (event : string) :
  (match op with Add e _ | Remove e _ => e <> event end) ->
  handlers (register s op) event = handlers s event.
Proof.
  intros Hne. unfold handlers, register.
  destruct op as [e h | e h];
    unfold on, removeListener, Emitter_on, Emitter_removeListener, bind, gets;
    destruct (slot (_m s) e) as [| | hs]; cbn; try reflexivity;
    unfold slot; rewrite lookup_insert_ne by exact Hne; reflexivity.
Qed.

(** X1. [removeListener] undoes [on]: for an event that is no member of
    [Object.prototype], after [on(event, h)] and [removeListener(event, h)]
    the handlers of the event are those from before without [h], in the
    same order; [h] is not among them, and the handlers of every other
    event are as before. *)
Theorem removeListener_after_on (s : State) (event : string) (h : nat) :
  inherited event = false ->
  let s2 := register (register s (Add event h)) (Remove event h) in
  handlers s2 event = Set_delete (handlers s event) h
  /\ (h ∉ handlers s2 event)
  /\ (h ∉ handlers s event -> handlers s2 event = handlers s event)
  /\ forall other, event <> other -> handlers s2 other = handlers s other.
Proof.
  intros Hevent s2.
  assert (Heq : handlers s2 event = Set_delete (handlers s event) h).
  { unfold s2. rewrite handlers_removeListener, handlers_on by exact Hevent.
    apply Set_delete_add. }
  split; [exact Heq |]. split; [rewrite Heq; apply not_elem_of_Set_delete |].
  split.
  - intros Hin. rewrite Heq. apply Set_delete_absent, Hin.
  - intros other Hne. unfold s2.
    rewrite (handlers_other _ (Remove event h)), (handlers_other _ (Add event h)); auto.
Qed.

(** X2. [removeListener] of a handler that is not registered for the event
    changes no set of handlers, whether the event has a set, has none or is
    a member of [Object.prototype]. *)
Theorem removeListener_absent (s : State) (event : string) (h : nat) :
  h ∉ handlers s event ->
  _m (snd (removeListener event h s)) = _m s.
Proof.
  unfold handlers, removeListener, Emitter_removeListener, bind, gets.
  destruct (slot (_m s) event) as [| | hs] eqn:Hslot; cbn; try reflexivity.
  intros Hin. rewrite (Set_delete_absent hs h Hin).
  apply insert_id, slot_Handlers, Hslot.
Qed.

Lemma register_prototype_intact (s : State) (op : Registration) :
  prototype_intact s -> prototype_intact (register s op).
Proof.
  intros Hok. unfold register.
  destruct op as [event handler | event handler];
    unfold on, removeListener, Emitter_on, Emitter_removeListener, bind, gets;
    destruct (slot (_m s) event) as [| | hs] eqn:Hslot; cbn; try exact Hok;
    intros e' He'; cbn; destruct (decide (event = e')) as [<- | Hne];
    try (rewrite lookup_insert_ne by assumption; exact (Hok _ He')); exfalso.
  - unfold slot in Hslot. rewrite (Hok _ He') in Hslot.
    unfold inherited in He'. rewrite He' in Hslot. discriminate.
  - apply slot_Handlers in Hslot. rewrite (Hok _ He') in Hslot. discriminate.
  - apply slot_Handlers in Hslot. rewrite (Hok _ He') in Hslot. discriminate.
Qed.

Lemma registered_prototype_intact (ops : list Registration) (s : State) :
  prototype_intact s -> prototype_intact (fold_left register ops s).
Proof.
  revert s. induction ops as [| op ops IH]; intros s Hok; [exact Hok |].
  cbn. apply IH, register_prototype_intact, Hok.
Qed.

Lemma inherited_not_accountsChanged (event : string) :
  inherited event = true ->
  String.eqb event "accountsChanged" = false /\ String.eqb event "chainChanged" = false.
Proof.
  intros Hevent. split.
  - destruct (String.eqb_spec event "accountsChanged") as [-> |]; [| reflexivity].
    vm_compute in Hevent. discriminate.
  - destruct (String.eqb_spec event "chainChanged") as [-> |]; [| reflexivity].
    vm_compute in Hevent. discriminate.
Qed.

(** X3. An event named like a member of [Object.prototype] ('constructor',
    'toString', '__proto__', ...) cannot be used: on a registry built by
    any calls of [on] and [removeListener], [on], [removeListener], [emit]
    and [_emitFromHost] all throw for it, no handler is registered and no
    page function is called. *)
Theorem prototype_event_throws (ops : list Registration) (event : string) (h : nat)
    (payload : JsVal) (s0 : State) :
  _m s0 = ∅ ->
  inherited event = true ->
  let s := fold_left register ops s0 in
  (exists e, fst (on event h s) = Throw e)
  /\ (exists e, fst (removeListener event h s) = Throw e)
  /\ (exists e, fst (_emitFromHost event payload s) = Throw e)
  /\ _m (snd (on event h s)) = _m s
  /\ invoked (snd (_emitFromHost event payload s)) = invoked s.
Proof.
  intros Hempty Hevent s.
  assert (Hok : prototype_intact s).
  { apply registered_prototype_intact. intros e _. rewrite Hempty. apply lookup_empty. }
  assert (Hslot : slot (_m s) event = Inherited).
  { unfold slot. rewrite (Hok _ Hevent). unfold inherited in Hevent. rewrite Hevent.
    reflexivity. }
  destruct (inherited_not_accountsChanged event Hevent) as [Ha Hc].
  unfold on, removeListener, _emitFromHost, Emitter_on, Emitter_removeListener,
    Emitter_emit. rewrite Ha, Hc.
  unfold bind, gets, record_emit. cbn [_m]. rewrite Hslot. cbn.
  repeat split; eexists; reflexivity.
Qed.


(** *** More on the bridge and on [request] *)

Lemma only_allocates_refl (s : State) : only_allocates s s.
Proof. repeat split. Qed.

Lemma only_allocates_trans (s1 s2 s3 : State) :
  only_allocates s1 s2 -> only_allocates s2 s3 -> only_allocates s1 s3.
Proof.
  unfold only_allocates. intros (A1 & C1 & M1 & E1 & I1 & L1) (A2 & C2 & M2 & E2 & I2 & L2).
  repeat split; congruence.
Qed.

Lemma pure_ret {A} (a : A) : pure (ret a).
Proof. intros s. apply only_allocates_refl. Qed.

Lemma pure_throw {A} (e : JsVal) : pure (@throw A e).
Proof. intros s. apply only_allocates_refl. Qed.

Lemma pure_lift {A} (c : Completion A) : pure (lift c).
Proof. intros s. apply only_allocates_refl. Qed.

Lemma pure_fresh : pure fresh.
Proof. intros s. repeat split. Qed.

Lemma pure_bind {A B} (m : M A) (k : A -> M B) :
  pure m -> (forall a, pure (k a)) -> pure (bind m k).
Proof.
  intros Hm Hk s. unfold bind. specialize (Hm s).
  destruct (m s) as [[a | e] s']; simpl in *; auto.
  eapply only_allocates_trans; [exact Hm | apply Hk].
Qed.

Lemma pure_then {A B} (p : Settled A) (f : A -> M B) :
  (forall a, pure (f a)) -> pure (then_ p f).
Proof.
  intros Hf s. unfold then_. destruct p as [a | e |]; try apply only_allocates_refl.
  specialize (Hf a s). destruct (f a s) as [[b | e] s']; exact Hf.
Qed.

Lemma pure_catch {A} (p : Settled A) (f : JsVal -> M A) :
  (forall e, pure (f e)) -> pure (catch_ p f).
Proof.
  intros Hf s. unfold catch_. destruct p as [a | e |]; try apply only_allocates_refl.
  specialize (Hf e s). destruct (f e s) as [[b | e'] s']; exact Hf.
Qed.

Create HintDb pure.
#[local] Hint Resolve pure_ret pure_throw pure_lift pure_fresh pure_then pure_catch : pure.
#[local] Hint Extern 2 (pure (bind _ _)) => apply pure_bind; [| intro] : pure.
#[local] Hint Extern 3 (pure (if ?b then _ else _)) => destruct b : pure.
#[local] Hint Extern 3 (pure (match ?x with _ => _ end)) => destruct x : pure.

Lemma pure_object (props : list (string * JsVal)) : pure (object props).
Proof. unfold object. auto with pure. Qed.
#[local] Hint Resolve pure_object : pure.

Lemma pure_TypeError {A} (what : string) : pure (@TypeError A what).
Proof. unfold TypeError. auto with pure. Qed.
#[local] Hint Resolve pure_TypeError : pure.

Lemma pure_read (what : string) (o : option JsVal) : pure (read what o).
Proof. unfold read. auto with pure. Qed.
#[local] Hint Resolve pure_read : pure.

Lemma pure_callHost_then (raw : JsVal) : pure (callHost_then raw).
Proof. unfold callHost_then, new_Error. auto 12 with pure. Qed.
#[local] Hint Resolve pure_callHost_then : pure.

Lemma pure_callHost (callHandler : option Bridge) (payload : list (string * JsVal)) :
  pure (callHost callHandler payload).
Proof. unfold callHost, new_Error. auto 8 with pure. Qed.
#[local] Hint Resolve pure_callHost : pure.

Lemma pure_envelope_result (payload result : JsVal) : pure (envelope_result payload result).
Proof. unfold envelope_result. auto 8 with pure. Qed.

Lemma pure_envelope_error (payload err : JsVal) : pure (envelope_error payload err).
Proof. unfold envelope_error. auto 12 with pure. Qed.
#[local] Hint Resolve pure_envelope_result pure_envelope_error : pure.

Lemma request_then_passes (method result : JsVal) (s : State) :
  infers method result = false -> request_then method result s = (Normal result, s).
Proof.
  unfold infers, request_then.
  destruct (strict_eq method (VStr "eth_requestAccounts") || strict_eq method (VStr "eth_accounts"));
    destruct (isArray result); destruct (strict_eq method (VStr "eth_chainId"));
    destruct (String.eqb (typeof result) "string"); cbn; intros H;
    try discriminate; reflexivity.
Qed.

(** X5. A result that [request] reads nothing off (any method but the
    three it knows, an accounts method whose result is no array, or
    ['eth_chainId'] whose result is no string) is passed to the caller as it
    is, and the state of the provider stays exactly as it was. *)
Theorem request_passes_result (callHandler : option Bridge) (id : Z)
    (method params result : JsVal) (s : State) :
  fst (callHost callHandler [("id", VNum id); ("method", method); ("params", params)] s)
    = Normal (Fulfilled result) ->
  infers method result = false ->
  request callHandler id method params s = (Normal (Fulfilled result), s).
Proof.
  intros Hcall Hinfers. rewrite (request_fulfilled _ _ _ _ _ _ Hcall).
  apply then_Normal, request_then_passes, Hinfers.
Qed.

(** X6. A host reply that decodes to a falsy response fulfils [request]
    with [null] for every method and leaves the state exactly as it was:
    a reply that is [null], [undefined], [0] or [false] itself, or a text
    that [JSON.parse] decodes to a falsy value.  (A reply that is the empty
    text is given to [JSON.parse] like every text; where the parser refuses
    it nothing is decoded.) *)
Theorem request_null_response (h : Bridge) (id : Z) (method params raw resp : JsVal)
    (s : State) :
  h BRIDGE (JSON_stringify [("id", VNum id); ("method", method); ("params", params)])
    = Resolves raw ->
  decoded raw resp ->
  truthy resp = false ->
  request (Some h) id method params s = (Normal (Fulfilled VNull), s).
Proof.
  intros Hreply Hdec Hresp.
  assert (Hcall : callHost (Some h) [("id", VNum id); ("method", method); ("params", params)] s
                  = (Normal (Fulfilled VNull), s)).
  { unfold callHost. rewrite Hreply. apply then_Normal. unfold callHost_then.
    assert (Hparse : (match raw with VStr text => lift (JSON_parse text) | _ => ret raw end) s
                     = (Normal resp, s)).
    { destruct raw; simpl in Hdec; subst; try reflexivity.
      unfold lift. rewrite Hdec. reflexivity. }
    rewrite (bind_Normal _ _ _ _ _ Hparse), Hresp. reflexivity. }
  unfold request. rewrite (bind_Normal _ _ _ _ _ Hcall).
  apply then_Normal, request_then_passes.
  unfold infers. cbn. rewrite !andb_false_r. reflexivity.
Qed.

(** X7. Failures of the bridge pass through [request] unchanged and leave
    the state exactly as it was: a reply text that [JSON.parse] refuses
    rejects the request with the parser's error, a rejection by the host
    rejects it with the host's reason, and while the host does not answer
    the request stays pending. *)
Theorem request_failure_passes (h : Bridge) (id : Z) (method params : JsVal) (s : State) :
  let reply := h BRIDGE (JSON_stringify [("id", VNum id); ("method", method);
                                         ("params", params)]) in
  (forall text e, reply = Resolves (VStr text) -> JSON_parse text = Throw e ->
     request (Some h) id method params s = (Normal (Rejected e), s))
  /\ (forall e, reply = Rejects e ->
        request (Some h) id method params s = (Normal (Rejected e), s))
  /\ (reply = Hangs -> request (Some h) id method params s = (Normal Pending, s)).
Proof.
  intros reply. unfold request, callHost. fold reply.
  split; [| split].
  - intros text e -> Hparse.
    assert (Hthen : callHost_then (VStr text) s = (Throw e, s)).
    { unfold callHost_then. apply bind_Throw. unfold lift. rewrite Hparse. reflexivity. }
    rewrite (bind_Normal _ _ _ _ _ (then_Throw _ _ _ _ _ Hthen)). reflexivity.
  - intros e ->. reflexivity.
  - intros ->. reflexivity.
Qed.

Lemma then_returns {A B} (p : Settled A) (f : A -> M B) (s : State) :
  exists q, fst (then_ p f s) = Normal q.
Proof.
  unfold then_. destruct p as [a | e |]; try (eexists; reflexivity).
  destruct (f a s) as [[b | e] s']; eexists; reflexivity.
Qed.

Lemma then_returns_pair {A B} (p : Settled A) (f : A -> M B) (s s' : State) (e : JsVal) :
  then_ p f s = (Throw e, s') -> False.
Proof.
  intros H. destruct (then_returns p f s) as (q & Hq). rewrite H in Hq. discriminate.
Qed.

(** X9. The bridge call keeps no state: whatever the host does, [callHost]
    leaves the address, the chain id, the listeners and everything the page
    saw as they were; it only creates the error object it rejects with. *)
Theorem callHost_stateless (callHandler : option Bridge) (payload : list (string * JsVal))
    (s : State) :
  only_allocates s (snd (callHost callHandler payload s))
  /\ (allocated (snd (callHost callHandler payload s)) = allocated s
      \/ exists e, fst (callHost callHandler payload s) = Normal (Rejected e)).
Proof.
  split; [apply pure_callHost |].
  destruct (callHost callHandler payload s) as [[[v | e |] | e] s1] eqn:Hcall; cbn [fst snd].
  - left. assert (H := callHost_fulfilled callHandler payload v s).
    rewrite Hcall in H. specialize (H eq_refl). injection H as ->. reflexivity.
  - right. eexists. reflexivity.
  - left. unfold callHost in Hcall. destruct callHandler as [h |]; [| discriminate].
    destruct (h BRIDGE _); try discriminate; unfold then_ in Hcall.
    + destruct (callHost_then raw s) as [[] ?]; discriminate.
    + injection Hcall as <-. reflexivity.
  - left. unfold callHost in Hcall. destruct callHandler as [h |]; [| discriminate].
    destruct (h BRIDGE _); try discriminate; unfold then_ in Hcall.
    + destruct (callHost_then raw s) as [[] ?]; discriminate.
    + injection Hcall as <- <-. reflexivity.
Qed.

(** *** More on account and host events *)

Lemma truthy_get0 (v : JsVal) : truthy v = true -> get0 v = Some (default VUndef (get0 v)).
Proof. destruct v as [| | | | [| c rest] | | |]; cbn; try discriminate; reflexivity. Qed.

(** The host path looks at the payload only through [payload && payload[0]]. *)
Lemma emitFromHost_first (payload : JsVal) (s : State) :
  _emitFromHost "accountsChanged" payload s
  = _emitFromHost "accountsChanged" (VArr (Ext 0) [first_of payload]) s.
Proof.
  unfold _emitFromHost, first_of. cbn [String.eqb Ascii.eqb Bool.eqb truthy get0].
  destruct (truthy payload) eqn:Hpayload; [| reflexivity].
  rewrite (truthy_get0 payload Hpayload). reflexivity.
Qed.

Lemma lowered_address (v : JsVal) (s : State) :
  is_address v = true ->
  toLowerCase_ (js_or v (VStr "")) s = (Normal (VStr (lowered v)), s).
Proof.
  destruct v as [| | | | a | | |]; try discriminate; intros _; [reflexivity |].
  unfold js_or. cbn. destruct (String.eqb a "") eqn:Ha; cbn; [| reflexivity].
  apply String.eqb_eq in Ha. subst a. reflexivity.
Qed.

(** One pushed array with the first element [x], when the candidate is a
    string or [null]. *)
Lemma pushed_first (r : Ref) (x : JsVal) (s : State) :
  is_address (_selectedAddress s) = true ->
  is_address (js_or x VNull) = true ->
  exists s',
    _emitFromHost "accountsChanged" (VArr r [x]) s = (Normal tt, s')
    /\ _selectedAddress s' = js_or x VNull
    /\ _chainId s' = _chainId s
    /\ emitted s' = emitted s
         ++ change (String.eqb (lowered (js_or x VNull)) (lowered (_selectedAddress s)))
              ("accountsChanged", [VArr (Own (allocated s)) (announced (js_or x VNull))]).
Proof.
  intros Haddr Hnext. unfold _emitFromHost.
  cbn [String.eqb Ascii.eqb Bool.eqb truthy get0 read head from_option id].
  unfold bind at 1, ret at 1. unfold bind at 1, gets at 1.
  rewrite (bind_Normal _ _ _ _ _ (lowered_address _ s Hnext)).
  rewrite (bind_Normal _ _ _ _ _ (lowered_address _ s Haddr)).
  cbn [strict_eq]. unfold bind at 1, set_selectedAddress at 1.
  destruct (String.eqb (lowered (js_or x VNull)) (lowered (_selectedAddress s)));
    cbn [negb change].
  - eexists. split; [reflexivity |]. cbn. rewrite app_nil_r. auto.
  - unfold bind at 1, gets at 1. cbn [_selectedAddress]. unfold announced.
    destruct (truthy (js_or x VNull));
      rewrite (bind_Normal _ _ _ _ _ (array_allocated _ _));
      match goal with |- context [Emitter_emit ?e ?a ?st] =>
        destruct (Emitter_emit_returns e a st eq_refl) as (s' & -> & A & C & _ & _ & E & _)
      end; exists s'; cbn in *; auto.
Qed.

(** One pushed array with the first element [x], when the candidate is
    neither a string nor [null]. *)
Lemma pushed_not_address (r : Ref) (x : JsVal) (s : State) :
  is_address (js_or x VNull) = false ->
  exists e,
    _emitFromHost "accountsChanged" (VArr r [x]) s = (Throw e, allocate 1 s).
Proof.
  intros Hnext. unfold _emitFromHost.
  cbn [String.eqb Ascii.eqb Bool.eqb truthy get0 read head from_option id].
  unfold bind at 1, ret at 1. unfold bind at 1, gets at 1.
  assert (Hthrow : exists e, toLowerCase_ (js_or (js_or x VNull) (VStr "")) s
                             = (Throw e, allocate 1 s)).
  { unfold js_or in *. destruct x as [| | [|] | z | a | | |]; cbn in *; try discriminate;
      try (eexists; reflexivity).
    - destruct (z =? 0) eqn:Hz; cbn in *; [discriminate |].
      rewrite Hz. cbn. eexists. reflexivity.
    - destruct (String.eqb a ""); discriminate. }
  destruct Hthrow as (e & Hthrow). exists e.
  apply bind_Throw, Hthrow.
Qed.

(** X10. Pushing no account ([null], [undefined], an empty array, an array
    whose first element is falsy) over a selected address that is a string
    or [null] clears the address, and announces the empty list exactly when
    the lower-cased address before was not the lower-cased empty string. *)
Theorem host_push_disconnects (payload : JsVal) (s : State) :
  is_address (_selectedAddress s) = true ->
  truthy (first_of payload) = false ->
  exists s',
    _emitFromHost "accountsChanged" payload s = (Normal tt, s')
    /\ _selectedAddress s' = VNull
    /\ _chainId s' = _chainId s
    /\ emitted s' = emitted s
         ++ change (String.eqb (toLowerCase "") (lowered (_selectedAddress s)))
              ("accountsChanged", [VArr (Own (allocated s)) []]).
Proof.
  intros Haddr Hfirst. rewrite emitFromHost_first.
  assert (Hnext : js_or (first_of payload) VNull = VNull)
    by (unfold js_or; rewrite Hfirst; reflexivity).
  destruct (pushed_first (Ext 0) (first_of payload) s Haddr) as (s' & Hs' & Hsel & Hc & Hem).
  { rewrite Hnext. reflexivity. }
  rewrite Hnext in *. exists s'. auto.
Qed.

Lemma strict_eq_VStr (v : JsVal) (a : string) : strict_eq v (VStr a) = true -> v = VStr a.
Proof.
  destruct v; cbn; try discriminate. intros H. apply String.eqb_eq in H. congruence.
Qed.


(** *** The selected address under every operation *)

Lemma snd_bind_ret {A B} (m : M A) (b : B) (s : State) :
  snd (bind m (fun _ => ret b) s) = snd (m s).
Proof. unfold bind. destruct (m s) as [[a | e] s']; reflexivity. Qed.

Lemma Emitter_emit_keeps (event : string) (args : list JsVal) (s : State) :
  _selectedAddress (snd (Emitter_emit event args s)) = _selectedAddress s.
Proof.
  destruct (slot (_m s) event) as [| | hs] eqn:Hslot.
  - destruct (Emitter_emit_slot event args s) as (s' & -> & A & _); [| exact A].
    rewrite Hslot. discriminate.
  - unfold Emitter_emit, bind, record_emit, gets. cbn [_m]. rewrite Hslot. reflexivity.
  - destruct (Emitter_emit_slot event args s) as (s' & -> & A & _); [| exact A].
    rewrite Hslot. discriminate.
Qed.

Lemma address_ok_is_address (v : JsVal) : address_ok v = true -> is_address v = true.
Proof. destruct v; cbn; auto. Qed.

Lemma address_ok_candidate (x : JsVal) :
  is_address (js_or x VNull) = true -> address_ok (js_or x VNull) = true.
Proof.
  unfold js_or. destruct x as [| | [|] | z | a | | |]; cbn; auto.
  - destruct (z =? 0); auto.
  - destruct (String.eqb a "") eqn:Ha; cbn; [reflexivity | rewrite Ha; reflexivity].
Qed.

Lemma emitFromHost_address (event : string) (payload : JsVal) (s : State) :
  address_ok (_selectedAddress s) = true ->
  address_ok (_selectedAddress (snd (_emitFromHost event payload s))) = true.
Proof.
  intros Hok.
  destruct (String.eqb event "accountsChanged") eqn:Ha.
  - apply String.eqb_eq in Ha. subst event. rewrite emitFromHost_first.
    destruct (is_address (js_or (first_of payload) VNull)) eqn:Hnext.
    + destruct (pushed_first (Ext 0) (first_of payload) s (address_ok_is_address _ Hok) Hnext)
        as (s' & Hs' & Hsel & _).
      rewrite Hs'. cbn [snd]. rewrite Hsel. apply address_ok_candidate, Hnext.
    + destruct (pushed_not_address (Ext 0) (first_of payload) s Hnext) as (e & ->).
      exact Hok.
  - unfold _emitFromHost. rewrite Ha.
    destruct (String.eqb event "chainChanged").
    + unfold bind at 1, gets at 1. unfold bind at 1, set_chainId at 1.
      destruct (negb (strict_eq payload (_chainId s))); [| exact Hok].
      unfold bind at 1, gets at 1. rewrite Emitter_emit_keeps. exact Hok.
    + rewrite Emitter_emit_keeps. exact Hok.
Qed.

Lemma request_then_chain (result : JsVal) (s : State) :
  String.eqb (typeof result) "string" = true ->
  request_then (VStr "eth_chainId") result s
  = bind (_emitFromHost "chainChanged" result) (fun _ => ret result) s.
Proof.
  intros Htype. unfold request_then, _emitFromHost.
  cbn [strict_eq String.eqb Ascii.eqb Bool.eqb orb]. rewrite Htype. reflexivity.
Qed.

Lemma request_then_address (method result : JsVal) (s : State) :
  address_ok (_selectedAddress s) = true ->
  address_ok (_selectedAddress (snd (request_then method result s))) = true.
Proof.
  intros Hok. destruct (infers method result) eqn:Hinfers.
  2: { rewrite (request_then_passes _ _ _ Hinfers). exact Hok. }
  unfold infers in Hinfers. apply orb_true_iff in Hinfers as [Hacc | Hchain].
  - apply andb_true_iff in Hacc as [Hmethod Harr].
    destruct result as [| | | | | r elems | |]; try discriminate.
    rewrite request_then_accounts, snd_bind_ret.
    + apply emitFromHost_address, Hok.
    + apply orb_true_iff in Hmethod as [H | H]; apply strict_eq_VStr in H; auto.
  - apply andb_true_iff in Hchain as [Hmethod Htype].
    apply strict_eq_VStr in Hmethod. subst method.
    rewrite (request_then_chain _ _ Htype), snd_bind_ret.
    apply emitFromHost_address, Hok.
Qed.

Lemma request_address (callHandler : option Bridge) (id : Z) (method params : JsVal)
    (s : State) :
  address_ok (_selectedAddress s) = true ->
  address_ok (_selectedAddress (snd (request callHandler id method params s))) = true.
Proof.
  intros Hok. unfold request, bind.
  pose proof (frames_callHost callHandler
                [("id", VNum id); ("method", method); ("params", params)] s) as Hframe.
  destruct (callHost callHandler _ s) as [[p | e] s1]; cbn [snd] in *;
    destruct Hframe as (Hsel & _); [| rewrite Hsel; exact Hok].
  unfold then_. destruct p as [result | e |]; cbn [snd]; try (rewrite Hsel; exact Hok).
  assert (Hok1 : address_ok (_selectedAddress s1) = true) by (rewrite Hsel; exact Hok).
  pose proof (request_then_address method result s1 Hok1) as H.
  destruct (request_then method result s1) as [[v | e] s2]; exact H.
Qed.

Lemma frames_send_payload (callHandler : option Bridge) (id : Z) (payload cb : JsVal) :
  String.eqb (typeof payload) "string" = false -> frames (send callHandler id payload cb).
Proof. intros H. unfold send. rewrite H. auto 20 with frame. Qed.


(** *** More on the legacy calls *)

Lemma payload_reads (r : Ref) (props : list (string * JsVal)) (name what : string)
    (s : State) :
  read what (get (VObj r props) name) s = (Normal (field (VObj r props) name), s).
Proof. reflexivity. Qed.

(** What [send] and [sendAsync] do with the promise of the envelope when the
    second argument is the page function [f]. *)
Lemma callback_delivery {B} (b : B) (f : nat) (env : JsVal) (s : State) :
  let again := match page (invoked s) f [VNull; env] with
               | None => []
               | Some e => [(f, [e; VNull])]
               end in
  exists s',
    bind (then_ (Fulfilled env) (fun r => call (VFun f) [VNull; r]))
         (fun q => bind (catch_ q (fun e => call (VFun f) [e; VNull])) (fun _ => ret b)) s
    = (Normal b, s')
    /\ invoked s' = invoked s ++ (f, [VNull; env]) :: again
    /\ same_provider s s'.
Proof.
  cbv zeta. unfold bind, then_, catch_, call, call_fn, gets, record_call, ret, throw. cbn.
  destruct (page (invoked s) f [VNull; env]) as [e |]; cbn.
  - destruct (page (invoked s ++ _) f [e; VNull]); cbn;
      eexists; (split; [reflexivity |]); cbn; rewrite <- app_assoc; repeat split.
  - eexists. split; [reflexivity |]. repeat split.
Qed.

(** X14. When the bridge call succeeds, [sendAsync(payload, cb)] and
    [send(payload, cb)] call [cb(null, envelope)] with the envelope
    [{id, jsonrpc: '2.0', result}]; [cb] is called a second time, with what
    it threw and [null], exactly when that first call throws.  [send]
    returns nothing, and the provider's state is not touched. *)
Theorem callback_on_success (h : Bridge) (id : Z) (r : Ref) (props : list (string * JsVal))
    (f : nat) (raw resp : JsVal) (s : State) :
  let payload := VObj r props in
  let env := VObj (Own (allocated s))
               [("id", field payload "id"); ("jsonrpc", VStr "2.0");
                ("result", field resp "result")] in
  let again := match page (invoked s) f [VNull; env] with
               | None => []
               | Some e => [(f, [e; VNull])]
               end in
  h BRIDGE (JSON_stringify [("id", js_coalesce (field payload "id") (VNum id));
                            ("method", field payload "method");
                            ("params", field payload "params")]) = Resolves raw ->
  decoded raw resp ->
  truthy resp = true ->
  truthy (field resp "error") = false ->
  (fst (sendAsync (Some h) id payload (VFun f) s) = Normal tt
   /\ invoked (snd (sendAsync (Some h) id payload (VFun f) s))
      = invoked s ++ (f, [VNull; env]) :: again
   /\ same_provider s (snd (sendAsync (Some h) id payload (VFun f) s)))
  /\ (fst (send (Some h) id payload (VFun f) s) = Normal Nothing
      /\ invoked (snd (send (Some h) id payload (VFun f) s))
         = invoked s ++ (f, [VNull; env]) :: again
      /\ same_provider s (snd (send (Some h) id payload (VFun f) s))).
Proof.
  intros payload env again Hreply Hdec Hresp Herr.
  pose proof (callHost_result h _ raw resp s Hreply Hdec Hresp Herr) as Hcall.
  destruct (callback_delivery tt f env (allocate 1 s)) as (s' & Hs' & Hinv & Hsame).
  destruct (callback_delivery Nothing f env (allocate 1 s)) as (s2 & Hs2 & Hinv2 & Hsame2).
  assert (Hp : forall s1, catch_ (Fulfilled env) (envelope_error payload) s1
                          = (Normal (Fulfilled env), s1)) by reflexivity.
  assert (Henv : then_ (Fulfilled (field resp "result")) (envelope_result payload) s
                 = (Normal (Fulfilled env), allocate 1 s)) by reflexivity.
  split.
  - unfold sendAsync.
    rewrite !(bind_Normal _ _ _ _ _ (payload_reads r props _ _ s)).
    rewrite (bind_Normal _ _ _ _ _ Hcall), (bind_Normal _ _ _ _ _ Henv).
    rewrite (bind_Normal _ _ _ _ _ (Hp _)).
    fold again in Hinv. rewrite Hs'. split; [reflexivity |]. split; [exact Hinv | exact Hsame].
  - unfold send.
    change (String.eqb (typeof payload) "string") with false.
    change (String.eqb (typeof (VFun f)) "function") with true. cbv iota.
    rewrite !(bind_Normal _ _ _ _ _ (payload_reads r props _ _ s)).
    rewrite (bind_Normal _ _ _ _ _ Hcall), (bind_Normal _ _ _ _ _ Henv).
    rewrite (bind_Normal _ _ _ _ _ (Hp _)).
    change (truthy (VFun f)) with true. cbv iota.
    fold again in Hinv2. rewrite Hs2.
    split; [reflexivity |]. split; [exact Hinv2 | exact Hsame2].
Qed.

Lemma get_not_nullish (v : JsVal) (name : string) :
  nullish v = false -> get v name = Some (field v name).
Proof. destruct v; cbn; try discriminate; reflexivity. Qed.

(** X15. [send] turns every failure of the bridge call into an envelope: when
    the bridge call is rejected with a reason [e] that is not [null] or
    [undefined] (no bridge, a host error, a reply that does not parse, a
    rejection by the host), the promise of [send] is fulfilled with
    [{id, jsonrpc: '2.0', error: {code: e.code ?? -32603, message:
    e.message, data: e.data}}]; it is rejected only when the reason is
    [null] or [undefined]. *)
Theorem send_wraps_failure (callHandler : option Bridge) (id : Z) (r : Ref)
    (props : list (string * JsVal)) (paramsOrCallback e : JsVal) (s s1 : State) :
  let payload := VObj r props in
  String.eqb (typeof paramsOrCallback) "function" = false ->
  callHost callHandler [("id", js_coalesce (field payload "id") (VNum id));
                        ("method", field payload "method");
                        ("params", field payload "params")] s
    = (Normal (Rejected e), s1) ->
  (nullish e = false ->
   send callHandler id payload paramsOrCallback s
   = (Normal (APromise (Fulfilled (VObj (Own (allocated s1))
        [("id", field payload "id"); ("jsonrpc", VStr "2.0");
         ("error", VObj (Own (1 + allocated s1))
            [("code", js_coalesce (field e "code") (VNum (-32603)));
             ("message", field e "message"); ("data", field e "data")])]))),
      allocate 2 s1))
  /\ (nullish e = true ->
      exists e', fst (send callHandler id payload paramsOrCallback s)
                 = Normal (APromise (Rejected e'))).
Proof.
  intros payload Hcb Hcall. unfold send. rewrite Hcb.
  change (String.eqb (typeof payload) "string") with false. cbv iota.
  rewrite !(bind_Normal _ _ _ _ _ (payload_reads r props _ _ s)).
  rewrite (bind_Normal _ _ _ _ _ Hcall).
  unfold bind at 1, then_ at 1. unfold bind at 1, catch_ at 1.
  split.
  - intros He. unfold envelope_error. unfold bind at 1, fresh at 1.
    rewrite (bind_Normal _ _ _ _ _ (payload_reads r props _ _ _)).
    unfold bind at 1, fresh at 1. rewrite !(get_not_nullish e _ He). reflexivity.
  - intros He. destruct e; try discriminate; cbn; eexists; reflexivity.
Qed.

Lemma pure_call_other (cb : JsVal) (args : list JsVal) :
  String.eqb (typeof cb) "function" = false -> pure (call cb args).
Proof. destruct cb; cbn; try discriminate; intros _; apply pure_TypeError. Qed.
#[local] Hint Resolve pure_call_other : pure.

(** X16. [sendAsync] with a second argument that is no function leaves a
    rejected promise that nobody handles.  For a payload that is an object
    and a bridge call that returns a promise: [sendAsync] returns normally;
    once the bridge call is settled, fulfilled or rejected, the promise of
    the final [.catch], which [sendAsync] keeps no reference to, is
    rejected (calling the second argument throws in [.then], and again in
    [.catch]); while the bridge call is pending it is pending.  The address,
    the chain id, the listeners and the calls of [emit] are as they were. *)
Theorem sendAsync_unhandled (callHandler : option Bridge) (id : Z) (r : Ref)
    (props : list (string * JsVal)) (cb : JsVal) (p0 : Settled JsVal) (s : State) :
  let payload := VObj r props in
  String.eqb (typeof cb) "function" = false ->
  fst (callHost callHandler [("id", js_coalesce (field payload "id") (VNum id));
                             ("method", field payload "method");
                             ("params", field payload "params")] s) = Normal p0 ->
  (exists last,
     fst (sendAsync_last callHandler id payload cb s) = Normal last
     /\ match p0 with
        | Pending => last = Pending
        | _ => exists e, last = Rejected e
        end)
  /\ sendAsync callHandler id payload cb s
     = (Normal tt, snd (sendAsync_last callHandler id payload cb s))
  /\ same_provider s (snd (sendAsync callHandler id payload cb s)).
Proof.
  intros payload Hcb Hcall.
  split; [| split; [| apply frames_sendAsync]].
  - unfold sendAsync_last.
    rewrite !(bind_Normal _ _ _ _ _ (payload_reads r props _ _ s)).
    destruct (callHost callHandler _ s) as [[p | e] s1] eqn:Hc; cbn [fst] in Hcall;
      [injection Hcall as -> | discriminate].
    rewrite (bind_Normal _ _ _ _ _ Hc).
    destruct p0 as [result | e |].
    + destruct cb; try discriminate; cbn; eexists; (split; [reflexivity |]);
        eexists; reflexivity.
    + destruct e; destruct cb; try discriminate; cbn; eexists; (split; [reflexivity |]);
        eexists; reflexivity.
    + eexists. split; reflexivity.
  - unfold sendAsync, sendAsync_last.
    rewrite !(bind_Normal _ _ _ _ _ (payload_reads r props _ _ s)).
    destruct (callHost callHandler _ s) as [[p | e] s1] eqn:Hc; cbn [fst] in Hcall;
      [injection Hcall as -> | discriminate].
    rewrite !(bind_Normal _ _ _ _ _ Hc).
    destruct p0 as [result | e |].
    + destruct cb; try discriminate; reflexivity.
    + destruct e; destruct cb; try discriminate; reflexivity.
    + reflexivity.
Qed.

(** X17. While the host does not answer, nothing happens: [sendAsync] and
    [send] return normally with the state exactly as it was, the callback
    is not called, and the promise [send] returns without callback stays
    pending. *)
Theorem hung_bridge_call (h : Bridge) (id : Z) (r : Ref) (props : list (string * JsVal))
    (cb : JsVal) (s : State) :
  let payload := VObj r props in
  h BRIDGE (JSON_stringify [("id", js_coalesce (field payload "id") (VNum id));
                            ("method", field payload "method");
                            ("params", field payload "params")]) = Hangs ->
  sendAsync (Some h) id payload cb s = (Normal tt, s)
  /\ send (Some h) id payload cb s
     = (Normal (if String.eqb (typeof cb) "function" then Nothing else APromise Pending), s).
Proof.
  intros payload Hreply.
  assert (Hcall : callHost (Some h)
                    [("id", js_coalesce (field payload "id") (VNum id));
                     ("method", field payload "method");
                     ("params", field payload "params")] s = (Normal Pending, s)).
  { unfold callHost. rewrite Hreply. reflexivity. }
  split.
  - unfold sendAsync.
    rewrite !(bind_Normal _ _ _ _ _ (payload_reads r props _ _ s)).
    rewrite (bind_Normal _ _ _ _ _ Hcall). reflexivity.
  - unfold send. change (String.eqb (typeof payload) "string") with false. cbv iota.
    rewrite !(bind_Normal _ _ _ _ _ (payload_reads r props _ _ s)).
    rewrite (bind_Normal _ _ _ _ _ Hcall).
    destruct cb; reflexivity.
Qed.

(** X18. A payload that is [null] or [undefined] makes [send] and
    [sendAsync] throw synchronously, whatever the bridge is: no page
    function is called and the provider's state is not touched. *)
Theorem null_payload_throws (callHandler : option Bridge) (id : Z) (payload cb : JsVal)
    (s : State) :
  nullish payload = true ->
  ((exists e, fst (sendAsync callHandler id payload cb s) = Throw e)
   /\ only_allocates s (snd (sendAsync callHandler id payload cb s)))
  /\ ((exists e, fst (send callHandler id payload cb s) = Throw e)
      /\ only_allocates s (snd (send callHandler id payload cb s))).
Proof.
  destruct payload; try discriminate; intros _;
    (split; (split; [eexists; reflexivity | repeat split])).
Qed.

End Provider.

(** ** Installation *)

Lemma initialized_dispatchEvent (type : string) (w : Window) :
  initialized (dispatchEvent type w)
  = (initialized w + if bool_decide (type = "ethereum#initialized") then 1 else 0)%nat.
Proof.
  unfold initialized, dispatchEvent. cbn [dispatched].
  rewrite filter_app, length_app. f_equal.
  case_bool_decide as Htype.
  - rewrite filter_cons_True by exact Htype. reflexivity.
  - rewrite filter_cons_False by exact Htype. reflexivity.
Qed.

(** The steps before the installation leave [window.ethereum] alone and
    dispatch no initialization signal. *)
Lemma announce_frame (cfg : Config) (p : nat) (w : Window) :
  ethereum (announce cfg p w) = ethereum w
  /\ initialized (announce cfg p w) = initialized w.
Proof.
  unfold announce.
  destruct (strict_eq (cfg_enableLegacyWeb3 cfg) (VBool false));
    destruct (strict_eq (cfg_enableEip6963 cfg) (VBool false)); cbn [negb];
    try rewrite initialized_dispatchEvent; cbn; auto.
Qed.

Lemma defineProperty_absent (v : Global) (c : bool) (w : Window) :
  ethereum w = None ->
  defineProperty_ethereum v c w
  = Some (mkWindow (Some (mkProperty v false c)) (web3 w) (requestProvider_listeners w)
                   (dispatched w)).
Proof. unfold defineProperty_ethereum. intros ->. reflexivity. Qed.

(** C9. When [window.ethereum] holds a provider and [forceReplace] is not
    set, the factory returns its provider, leaves [window.ethereum] as it
    was and dispatches no ['ethereum#initialized']; [window.ethereum]
    changes or the signal is dispatched only when no provider was there or
    [forceReplace] is set; and two runs without [forceReplace] on a page
    without provider leave the first provider installed and the signal
    dispatched once. *)
Theorem no_double_install (cfg : Config) (p : nat) (w : Window) :
  let w' := snd (createEip1193Provider cfg p w) in
  (Global_truthy (window_ethereum w) = true ->
   truthy (cfg_forceReplace cfg) = false ->
   fst (createEip1193Provider cfg p w) = Some p
   /\ ethereum w' = ethereum w /\ initialized w' = initialized w)
  /\ (ethereum w' <> ethereum w \/ initialized w' <> initialized w ->
      Global_truthy (window_ethereum w) = false \/ truthy (cfg_forceReplace cfg) = true)
  /\ (forall cfg2 p2,
        ethereum w = None ->
        strict_eq (cfg_autoInject cfg) (VBool false) = false ->
        truthy (cfg_forceReplace cfg) = false ->
        truthy (cfg_forceReplace cfg2) = false ->
        let w'' := snd (createEip1193Provider cfg2 p2 w') in
        window_ethereum w'' = Provider p /\ initialized w'' = S (initialized w)).
Proof.
  assert (Hkept : forall cfg p w,
    Global_truthy (window_ethereum w) = true ->
    truthy (cfg_forceReplace cfg) = false ->
    fst (createEip1193Provider cfg p w) = Some p
    /\ ethereum (snd (createEip1193Provider cfg p w)) = ethereum w
    /\ initialized (snd (createEip1193Provider cfg p w)) = initialized w).
  { clear. intros cfg p w Hexisting Hforce. unfold createEip1193Provider, inject.
    destruct (announce_frame cfg p w) as [He Hi].
    assert (Hsame : Global_truthy (window_ethereum (announce cfg p w)) = true)
      by (unfold window_ethereum in *; rewrite He; exact Hexisting).
    rewrite Hsame, Hforce, andb_false_r. cbn [fst snd]. auto. }
  cbv zeta. split; [apply Hkept |]. split.
  - intros Hchanged.
    destruct (Global_truthy (window_ethereum w)) eqn:Hexisting; [| left; reflexivity].
    destruct (truthy (cfg_forceReplace cfg)) eqn:Hforce; [right; reflexivity |].
    destruct (Hkept cfg p w Hexisting Hforce) as (_ & He & Hi).
    destruct Hchanged; congruence.
  - intros cfg2 p2 Hnone Hauto Hforce Hforce2.
    assert (Hfirst : window_ethereum (snd (createEip1193Provider cfg p w)) = Provider p
                     /\ initialized (snd (createEip1193Provider cfg p w)) = S (initialized w)).
    { unfold createEip1193Provider, inject.
      destruct (announce_frame cfg p w) as [He Hi].
      rewrite Hnone in He.
      assert (Hwe : window_ethereum (announce cfg p w) = Other VUndef)
        by (unfold window_ethereum; rewrite He; reflexivity).
      rewrite Hwe, (defineProperty_absent _ _ _ He), Hauto.
      cbn [negb Global_truthy truthy andb orb fst snd].
      split; [reflexivity |].
      rewrite initialized_dispatchEvent, bool_decide_eq_true_2 by reflexivity.
      unfold initialized in *. cbn [dispatched]. rewrite Hi. lia. }
    destruct Hfirst as [Hp Hi].
    destruct (Hkept cfg2 p2 (snd (createEip1193Provider cfg p w))) as (_ & He2 & Hi2).
    + rewrite Hp. reflexivity.
    + exact Hforce2.
    + split; [| congruence]. unfold window_ethereum in *. rewrite He2. exact Hp.
Qed.

(** The installation step changes [window.ethereum] at most, and dispatches
    the initialization signal at most. *)
Lemma inject_rest (cfg : Config) (p : nat) (w : Window) :
  requestProvider_listeners (snd (inject cfg p w)) = requestProvider_listeners w
  /\ web3 (snd (inject cfg p w)) = web3 w
  /\ exists tail,
       dispatched (snd (inject cfg p w)) = dispatched w ++ tail
       /\ (tail = [] \/ tail = ["ethereum#initialized"]).
Proof.
  unfold inject, defineProperty_ethereum.
  destruct (negb _ && _);
    [destruct (ethereum w) as [old |];
       [destruct (configurable old);
          [| destruct (truthy (cfg_forceReplace cfg));
             [| destruct (writable old); [| destruct (Global_same _ _)]]] |] |];
    cbn; (split; [reflexivity |]); (split; [reflexivity |]);
    first [exists []; rewrite app_nil_r; auto; fail
          | exists ["ethereum#initialized"]; auto].
Qed.

Lemma first_install (cfg : Config) (p : nat) (w : Window) :
  ethereum w = None ->
  strict_eq (cfg_autoInject cfg) (VBool false) = false ->
  createEip1193Provider cfg p w
  = (Some p, dispatchEvent "ethereum#initialized"
               (mkWindow (Some (mkProperty (Provider p) false (truthy (cfg_forceReplace cfg))))
                         (web3 (announce cfg p w))
                         (requestProvider_listeners (announce cfg p w))
                         (dispatched (announce cfg p w)))).
Proof.
  intros Hnone Hauto. unfold createEip1193Provider, inject.
  destruct (announce_frame cfg p w) as [He _]. rewrite Hnone in He.
  assert (Hwe : window_ethereum (announce cfg p w) = Other VUndef)
    by (unfold window_ethereum; rewrite He; reflexivity).
  rewrite Hwe, (defineProperty_absent _ _ _ He), Hauto. reflexivity.
Qed.

Lemma later_run (cfg : Config) (p : nat) (w : Window) (pr : Property) :
  ethereum w = Some pr -> configurable pr = false -> Global_truthy (value pr) = true ->
  ethereum (snd (createEip1193Provider cfg p w)) = ethereum w
  /\ initialized (snd (createEip1193Provider cfg p w)) = initialized w
  /\ (fst (createEip1193Provider cfg p w) = None
      <-> strict_eq (cfg_autoInject cfg) (VBool false) = false
          /\ truthy (cfg_forceReplace cfg) = true).
Proof.
  intros He Hc Hv. destruct (announce_frame cfg p w) as [Hea Hia].
  unfold createEip1193Provider, inject, window_ethereum, defineProperty_ethereum.
  rewrite Hea, He, Hc, Hv. cbn [negb orb].
  destruct (strict_eq (cfg_autoInject cfg) (VBool false));
    destruct (truthy (cfg_forceReplace cfg)); cbn [negb andb fst snd];
    rewrite ?Hea, ?Hia, ?He; repeat split; intuition congruence.
Qed.

(** X19. A provider installed without [forceReplace] is final: on a page
    without [window.ethereum], a run of the factory with injection on and
    [forceReplace] off defines the property as not writable and not
    configurable; every later run of the factory leaves that provider in
    [window.ethereum] and dispatches no ['ethereum#initialized'], and a
    later run fails, with the TypeError of [Object.defineProperty], exactly
    when it asks to inject with [forceReplace] set. *)
Theorem installed_is_final (cfg1 cfg2 : Config) (p1 p2 : nat) (w0 : Window) :
  ethereum w0 = None ->
  strict_eq (cfg_autoInject cfg1) (VBool false) = false ->
  truthy (cfg_forceReplace cfg1) = false ->
  let w := snd (createEip1193Provider cfg1 p1 w0) in
  ethereum w = Some (mkProperty (Provider p1) false false)
  /\ ethereum (snd (createEip1193Provider cfg2 p2 w)) = ethereum w
  /\ initialized (snd (createEip1193Provider cfg2 p2 w)) = initialized w
  /\ (fst (createEip1193Provider cfg2 p2 w) = None
      <-> strict_eq (cfg_autoInject cfg2) (VBool false) = false
          /\ truthy (cfg_forceReplace cfg2) = true).
Proof.
  intros Hnone Hauto Hforce w.
  assert (Hw : ethereum w = Some (mkProperty (Provider p1) false false)).
  { unfold w. rewrite (first_install cfg1 p1 w0 Hnone Hauto), Hforce. reflexivity. }
  split; [exact Hw |].
  apply (later_run cfg2 p2 w _ Hw); reflexivity.
Qed.

(** X20. With [forceReplace] the provider can be replaced again: two runs
    of the factory with injection on and [forceReplace] set, on a page
    without [window.ethereum], both return their provider, leave the second
    one in [window.ethereum] and dispatch ['ethereum#initialized'] twice. *)
Theorem forceReplace_replaces (cfg1 cfg2 : Config) (p1 p2 : nat) (w0 : Window) :
  ethereum w0 = None ->
  strict_eq (cfg_autoInject cfg1) (VBool false) = false ->
  truthy (cfg_forceReplace cfg1) = true ->
  strict_eq (cfg_autoInject cfg2) (VBool false) = false ->
  truthy (cfg_forceReplace cfg2) = true ->
  let w := snd (createEip1193Provider cfg1 p1 w0) in
  fst (createEip1193Provider cfg1 p1 w0) = Some p1
  /\ fst (createEip1193Provider cfg2 p2 w) = Some p2
  /\ ethereum (snd (createEip1193Provider cfg2 p2 w))
     = Some (mkProperty (Provider p2) false true)
  /\ initialized (snd (createEip1193Provider cfg2 p2 w)) = S (S (initialized w0)).
Proof.
  intros Hnone Hauto1 Hforce1 Hauto2 Hforce2 w.
  pose proof (first_install cfg1 p1 w0 Hnone Hauto1) as Hfirst. rewrite Hforce1 in Hfirst.
  assert (Hw : ethereum w = Some (mkProperty (Provider p1) false true))
    by (unfold w; rewrite Hfirst; reflexivity).
  assert (Hiw : initialized w = S (initialized w0)).
  { unfold w. rewrite Hfirst. cbn [snd].
    rewrite initialized_dispatchEvent, bool_decide_eq_true_2 by reflexivity.
    destruct (announce_frame cfg1 p1 w0) as [_ Hi].
    unfold initialized in *. cbn [dispatched]. rewrite Hi. lia. }
  split; [rewrite Hfirst; reflexivity |].
  destruct (announce_frame cfg2 p2 w) as [He Hi]. rewrite Hw in He.
  unfold createEip1193Provider, inject, defineProperty_ethereum.
  rewrite He, Hauto2, Hforce2. cbn [negb andb configurable writable].
  rewrite orb_true_r. cbn [fst snd].
  split; [reflexivity |]. split; [reflexivity |].
  rewrite initialized_dispatchEvent, bool_decide_eq_true_2 by reflexivity.
  unfold initialized in *. cbn [dispatched]. rewrite Hi, Hiw. lia.
Qed.

(** X21. [window.web3.currentProvider] follows the last run of the factory
    while [window.ethereum] keeps the first: unless [enableLegacyWeb3] is
    [false], every run points [window.web3] to its own provider, also when
    [window.ethereum] is kept or the installation fails; so after two runs
    with default options on a page without provider the two globals name
    different providers. *)
Theorem web3_follows_last_run (cfg : Config) (p : nat) (w : Window) :
  (strict_eq (cfg_enableLegacyWeb3 cfg) (VBool false) = false ->
   web3 (snd (createEip1193Provider cfg p w)) = Some p)
  /\ (strict_eq (cfg_enableLegacyWeb3 cfg) (VBool false) = true ->
      web3 (snd (createEip1193Provider cfg p w)) = web3 w)
  /\ (forall cfg2 p2,
        ethereum w = None ->
        strict_eq (cfg_autoInject cfg) (VBool false) = false ->
        truthy (cfg_forceReplace cfg) = false ->
        strict_eq (cfg_enableLegacyWeb3 cfg2) (VBool false) = false ->
        truthy (cfg_forceReplace cfg2) = false ->
        let w2 := snd (createEip1193Provider cfg2 p2
                         (snd (createEip1193Provider cfg p w))) in
        window_ethereum w2 = Provider p /\ web3 w2 = Some p2).
Proof.
  assert (Hweb3 : forall cfg p w,
    web3 (snd (createEip1193Provider cfg p w))
    = if strict_eq (cfg_enableLegacyWeb3 cfg) (VBool false) then web3 w else Some p).
  { clear. intros cfg p w.
    assert (Ha : web3 (announce cfg p w)
                 = if strict_eq (cfg_enableLegacyWeb3 cfg) (VBool false)
                   then web3 w else Some p).
    { unfold announce. destruct (strict_eq (cfg_enableLegacyWeb3 cfg) (VBool false));
        destruct (strict_eq (cfg_enableEip6963 cfg) (VBool false)); reflexivity. }
    unfold createEip1193Provider.
    destruct (inject_rest cfg p (announce cfg p w)) as (_ & -> & _). exact Ha. }
  split; [intros H; rewrite Hweb3, H; reflexivity |].
  split; [intros H; rewrite Hweb3, H; reflexivity |].
  intros cfg2 p2 Hnone Hauto Hforce Hlegacy Hforce2 w2.
  split; [| unfold w2; rewrite Hweb3, Hlegacy; reflexivity].
  assert (Hw : ethereum (snd (createEip1193Provider cfg p w))
               = Some (mkProperty (Provider p) false false)).
  { rewrite (first_install cfg p w Hnone Hauto), Hforce. reflexivity. }
  destruct (later_run cfg2 p2 _ _ Hw eq_refl eq_refl) as (He2 & _).
  unfold w2, window_ethereum. rewrite He2, Hw. reflexivity.
Qed.

(** X22. The options are switched off by [false] only: with
    [autoInject: false] the factory returns its provider and leaves
    [window.ethereum] and the initialization signal alone on every page;
    with [enableEip6963: false] it adds no listener and announces nothing;
    any other value of [autoInject], also [0], [null] or [''], injects on a
    page without [window.ethereum]. *)
Theorem options_off (cfg : Config) (p : nat) (w : Window) :
  (cfg_autoInject cfg = VBool false ->
   fst (createEip1193Provider cfg p w) = Some p
   /\ ethereum (snd (createEip1193Provider cfg p w)) = ethereum w
   /\ initialized (snd (createEip1193Provider cfg p w)) = initialized w)
  /\ (cfg_enableEip6963 cfg = VBool false ->
      requestProvider_listeners (snd (createEip1193Provider cfg p w))
      = requestProvider_listeners w
      /\ filter (fun type => type = "eip6963:announceProvider")
                (dispatched (snd (createEip1193Provider cfg p w)))
         = filter (fun type => type = "eip6963:announceProvider") (dispatched w))
  /\ (cfg_autoInject cfg <> VBool false ->
      ethereum w = None ->
      window_ethereum (snd (createEip1193Provider cfg p w)) = Provider p).
Proof.
  split; [| split].
  - intros Hauto. unfold createEip1193Provider, inject. rewrite Hauto. cbn.
    destruct (announce_frame cfg p w) as [He Hi]. auto.
  - intros Hoff.
    assert (Ha : requestProvider_listeners (announce cfg p w) = requestProvider_listeners w
                 /\ dispatched (announce cfg p w) = dispatched w).
    { unfold announce. rewrite Hoff. cbn.
      destruct (strict_eq (cfg_enableLegacyWeb3 cfg) (VBool false)); auto. }
    destruct Ha as [Hl Hd]. unfold createEip1193Provider.
    destruct (inject_rest cfg p (announce cfg p w)) as (-> & _ & tail & -> & Htail).
    rewrite Hl, Hd. split; [reflexivity |].
    rewrite filter_app.
    destruct Htail as [-> | ->]; [apply app_nil_r |].
    rewrite filter_cons_False, filter_nil, app_nil_r by discriminate. reflexivity.
  - intros Hauto Hnone.
    assert (Hstrict : strict_eq (cfg_autoInject cfg) (VBool false) = false).
    { destruct (cfg_autoInject cfg) as [| | [|] | | | | |]; try reflexivity. congruence. }
    unfold createEip1193Provider, inject.
    destruct (announce_frame cfg p w) as [He _]. rewrite Hnone in He.
    assert (Hwe : window_ethereum (announce cfg p w) = Other VUndef)
      by (unfold window_ethereum; rewrite He; reflexivity).
    rewrite Hwe, (defineProperty_absent _ _ _ He), Hstrict. reflexivity.
Qed.

(** X23. Every run of the factory with EIP-6963 on announces its provider
    exactly once and adds one listener for later requests, whether or not
    it installs the provider; the announcement comes before the
    initialization signal. *)
Theorem announces_once (cfg : Config) (p : nat) (w : Window) :
  strict_eq (cfg_enableEip6963 cfg) (VBool false) = false ->
  requestProvider_listeners (snd (createEip1193Provider cfg p w))
  = requestProvider_listeners w ++ [p]
  /\ exists tail,
       dispatched (snd (createEip1193Provider cfg p w))
       = dispatched w ++ "eip6963:announceProvider" :: tail
       /\ (tail = [] \/ tail = ["ethereum#initialized"]).
Proof.
  intros Hon.
  assert (Ha : requestProvider_listeners (announce cfg p w) = requestProvider_listeners w ++ [p]
               /\ dispatched (announce cfg p w)
                  = dispatched w ++ ["eip6963:announceProvider"]).
  { unfold announce. rewrite Hon. cbn.
    destruct (strict_eq (cfg_enableLegacyWeb3 cfg) (VBool false)); auto. }
  destruct Ha as [Hl Hd]. unfold createEip1193Provider.
  destruct (inject_rest cfg p (announce cfg p w)) as (-> & _ & tail & -> & Htail).
  split; [exact Hl |]. exists tail. rewrite Hd, <- app_assoc. auto.
Qed.

(** ** The properties on concrete inputs *)

Local Notation request0 := (request lower no_text no_parse no_json page2 no_config).
Local Notation callHost0 := (callHost no_text no_parse no_json no_config).
Local Notation send0 := (send lower no_text no_parse no_json page2 no_config).
Local Notation sendAsync0 := (sendAsync no_text no_parse no_json page2 no_config).
Local Notation emitFromHost0 := (_emitFromHost lower page2).
Local Notation deliver0 := (deliver lower no_text no_parse no_json page2 no_config).
Local Notation s0 := (initial no_config).
Local Notation provider_request0 :=
  (provider_request lower no_text no_parse no_json page2 no_config).

(** C3 as stated fails on [request(null)]: with no bridge channel the call
    throws a TypeError synchronously, where the parameter is destructured,
    and returns no promise. *)
Lemma request_null_counterexample :
  (exists e, provider_request0 None 1 VNull s0 = (Throw e, allocate 1 s0))
  /\ forall p s', provider_request0 None 1 VNull s0 <> (Normal p, s').
Proof.
  split; [eexists; reflexivity | discriminate].
Qed.

(** [request({method: 'eth_accounts'})] and [request()] on a page without
    bridge channel. *)
Lemma request_unavailable_witness :
  (VObj (Ext 0) [("method", VStr "eth_accounts")] <> VNull
   /\ provider_request0 None 1 (VObj (Ext 0) [("method", VStr "eth_accounts")]) s0
      = (Normal (Rejected (VObj (Own 0)
                   [("message", VStr "Bridge not available"); ("code", VNum (-32603))])),
         allocate 1 s0))
  /\ (VUndef <> VNull
      /\ provider_request0 None 1 VUndef s0
         = (Normal (Rejected (VObj (Own 0)
                      [("message", VStr "Bridge not available"); ("code", VNum (-32603))])),
            allocate 1 s0)).
Proof.
  split; split; try discriminate.
  - exact (request_unavailable lower no_text no_parse no_json page2 no_config 1
             (VObj (Ext 0) [("method", VStr "eth_accounts")]) s0 ltac:(discriminate)).
  - exact (request_unavailable lower no_text no_parse no_json page2 no_config 1
             VUndef s0 ltac:(discriminate)).
Defined.

(** C4 as stated fails on a host error with an empty message: the error
    [request] is rejected with carries 'Provider error', not the host's
    [error.message]. *)
Lemma host_error_message_counterexample :
  exists err s',
    request0 (Some (answering (error_response empty_message))) 1
             (VStr "eth_requestAccounts") VUndef s0
    = (Normal (Rejected err), s')
    /\ get err "code" = Some (VNum 4001)
    /\ get err "message" = Some (VStr "Provider error")
    /\ get empty_message "message" = Some (VStr "")
    /\ get err "message" <> get empty_message "message".
Proof.
  eexists. eexists. split; [reflexivity |]. repeat split. discriminate.
Qed.

(** The host response [{error: {code: 4001, message: 'User rejected'}}]
    rejects the request with code 4001 and that message. *)
Lemma request_host_error_witness :
  (answering (error_response user_rejected) (BRIDGE no_config)
     (no_json [("id", VNum 1); ("method", VStr "eth_requestAccounts"); ("params", VUndef)])
   = Resolves (error_response user_rejected)
   /\ decoded no_parse (error_response user_rejected) (error_response user_rejected)
   /\ get (error_response user_rejected) "error" = Some user_rejected
   /\ truthy user_rejected = true)
  /\ request0 (Some (answering (error_response user_rejected))) 1
              (VStr "eth_requestAccounts") VUndef s0
     = (Normal (Rejected (VObj (Own 0)
                  [("message", VStr "User rejected"); ("code", VNum 4001)])),
        allocate 1 s0).
Proof.
  split; [repeat split |].
  exact (request_host_error lower no_text no_parse no_json page2 no_config
           (answering (error_response user_rejected)) 1 (VStr "eth_requestAccounts") VUndef
           (error_response user_rejected) (error_response user_rejected) user_rejected s0
           eq_refl eq_refl eq_refl eq_refl).
Defined.

(** The envelopes of [send({id:7, method:'eth_chainId'})], once with the
    host result ['0x1'] and once with a host error. *)
Lemma send_envelope_witness :
  send0 (Some (answering (result_response (VStr "0x1")))) 1 chainId_payload VUndef s0
  = (Normal (APromise (Fulfilled (VObj (Own 0)
       [("id", VNum 7); ("jsonrpc", VStr "2.0"); ("result", VStr "0x1")]))),
     allocate 1 s0)
  /\ send0 (Some (answering (error_response user_rejected))) 1 chainId_payload VUndef s0
     = (Normal (APromise (Fulfilled (VObj (Own 1)
          [("id", VNum 7); ("jsonrpc", VStr "2.0");
           ("error", VObj (Own 2) [("code", VNum 4001); ("message", VStr "User rejected");
                                   ("data", VUndef)])]))),
        allocate 3 s0).
Proof.
  split.
  - exact (send_envelope lower no_text no_parse no_json page2 no_config
             (answering (result_response (VStr "0x1"))) 1 (Ext 2)
             [("id", VNum 7); ("method", VStr "eth_chainId")] VUndef
             (result_response (VStr "0x1")) (result_response (VStr "0x1")) s0
             eq_refl eq_refl eq_refl eq_refl).
  - exact (send_envelope lower no_text no_parse no_json page2 no_config
             (answering (error_response user_rejected)) 1 (Ext 2)
             [("id", VNum 7); ("method", VStr "eth_chainId")] VUndef
             (error_response user_rejected) (error_response user_rejected) s0
             eq_refl eq_refl eq_refl eq_refl).
Defined.

(** The payload [{id:7, method:'eth_chainId'}] with a callback and no
    bridge leaves the provider as it was. *)
Lemma send_payload_frame_witness :
  String.eqb (typeof chainId_payload) "string" = false
  /\ same_provider s0 (snd (send0 None 1 chainId_payload (VFun 9) s0))
  /\ same_provider s0 (snd (sendAsync0 None 1 chainId_payload (VFun 9) s0)).
Proof.
  split; [reflexivity |].
  exact (send_payload_frame lower no_text no_parse no_json page2 no_config
           None 1 chainId_payload (VFun 9) s0 eq_refl).
Defined.

(** The array [['0xAbC']] through both paths. *)
Lemma paths_converge_witness :
  fst (callHost0 (Some (answering (result_response (VArr (Ext 3) [VStr "0xAbC"]))))
         [("id", VNum 1); ("method", VStr "eth_accounts"); ("params", VUndef)] s0)
  = Normal (Fulfilled (VArr (Ext 3) [VStr "0xAbC"]))
  /\ snd (request0 (Some (answering (result_response (VArr (Ext 3) [VStr "0xAbC"]))))
            1 (VStr "eth_accounts") VUndef s0)
     = snd (emitFromHost0 "accountsChanged" (VArr (Ext 3) [VStr "0xAbC"]) s0).
Proof.
  split; [reflexivity |].
  exact (paths_converge lower no_text no_parse no_json page2 no_config
           (Some (answering (result_response (VArr (Ext 3) [VStr "0xAbC"]))))
           1 VUndef (Ext 3) [VStr "0xAbC"] s0 eq_refl).
Defined.

(** The run of [three_updates]: ['0xAbC'] is announced, the push
    of ['0xabc'] is not and is stored as it came, and the push of no
    account announces the empty list. *)
Lemma account_changes_witness :
  (is_address (_selectedAddress s0) = true
   /\ Forall (delivered no_text no_parse no_json no_config) three_updates)
  /\ _selectedAddress (fold_left deliver0 three_updates s0) = VNull
  /\ _selectedAddress (fold_left deliver0 (take 2 three_updates) s0) = VStr "0xabc"
  /\ exists new,
       emitted (fold_left deliver0 three_updates s0) = emitted s0 ++ new
       /\ Forall (fun e => fst e = "accountsChanged") new
       /\ payload_accounts <$> new = [[VStr "0xAbC"]; []].
Proof.
  assert (H3 : Forall (delivered no_text no_parse no_json no_config) three_updates).
  { repeat constructor. }
  assert (H2 : Forall (delivered no_text no_parse no_json no_config) (take 2 three_updates)).
  { repeat constructor. }
  split; [split; [reflexivity | exact H3] |].
  split; [| split].
  - exact (proj1 (account_changes lower no_text no_parse no_json page2 no_config
                    three_updates s0 eq_refl H3)).
  - exact (proj1 (account_changes lower no_text no_parse no_json page2 no_config
                    (take 2 three_updates) s0 eq_refl H2)).
  - exact (proj2 (account_changes lower no_text no_parse no_json page2 no_config
                    three_updates s0 eq_refl H3)).
Defined.



(** What that [emit] leaves: one call, the error of handler 2 on the
    console, handler 1 removed and handler 7 registered. *)
Example emit_while_removing :
  exists s',
    Emitter_emit_live page2 removing 3 "accountsChanged" [VNull]
      (fold_left register five_registrations s0)
    = Some (Normal tt, s')
    /\ invoked s' = [(2%nat, [VNull])]
    /\ console_error s' = [VStr "boom"]
    /\ handlers s' "accountsChanged" = [2%nat]
    /\ handlers s' "chainChanged" = [7%nat].
Proof.
  eexists. split; [vm_compute; reflexivity |]. repeat split.
Qed.

(** The number 5 as chain id: the host path stores it and emits,
    the client path leaves the state as it was. *)
Lemma chain_change_paths_witness :
  fst (callHost0 (Some (answering (result_response (VNum 5))))
         [("id", VNum 1); ("method", VStr "eth_chainId"); ("params", VUndef)] s0)
  = Normal (Fulfilled (VNum 5))
  /\ (exists s',
        emitFromHost0 "chainChanged" (VNum 5) s0 = (Normal tt, s')
        /\ _chainId s' = VNum 5
        /\ _selectedAddress s' = _selectedAddress s0
        /\ emitted s' = [("chainChanged", [VNum 5])])
  /\ request0 (Some (answering (result_response (VNum 5)))) 1 (VStr "eth_chainId") VUndef s0
     = (Normal (Fulfilled (VNum 5)), s0).
Proof.
  split; [reflexivity |]. split.
  - exact (proj1 (chain_change_paths lower no_text no_parse no_json page2 no_config
                    (VNum 5) s0)).
  - exact (proj2 (chain_change_paths lower no_text no_parse no_json page2 no_config
                    (VNum 5) s0)
             (Some (answering (result_response (VNum 5)))) 1 VUndef eq_refl).
Defined.

(** The factory on a page where provider 1 is installed, and two runs of
    it on a page without provider. *)
Lemma no_double_install_witness :
  (Global_truthy (window_ethereum installed_window) = true
   /\ truthy (cfg_forceReplace no_config) = false
   /\ ethereum empty_window = None
   /\ strict_eq (cfg_autoInject no_config) (VBool false) = false)
  /\ (fst (createEip1193Provider no_config 2 installed_window) = Some 2%nat
      /\ ethereum (snd (createEip1193Provider no_config 2 installed_window))
         = ethereum installed_window
      /\ initialized (snd (createEip1193Provider no_config 2 installed_window)) = 1%nat)
  /\ (window_ethereum (snd (createEip1193Provider no_config 2
                              (snd (createEip1193Provider no_config 1 empty_window))))
      = Provider 1
      /\ initialized (snd (createEip1193Provider no_config 2
                             (snd (createEip1193Provider no_config 1 empty_window))))
         = 1%nat).
Proof.
  split; [repeat split |]. split.
  - exact (proj1 (no_double_install no_config 2 installed_window) eq_refl eq_refl).
  - exact (proj2 (proj2 (no_double_install no_config 1 empty_window))
             no_config 2%nat eq_refl eq_refl eq_refl eq_refl).
Defined.

(** *** The further properties on concrete inputs *)

Local Notation "'on_page' f" := (f lower no_text no_parse no_json page2 no_config)
  (at level 10, f at level 9, only parsing).
Local Notation registered0 := (fold_left register five_registrations s0).
Local Notation perform0 := (perform lower no_text no_parse no_json page2 no_config).

(** Handler 7 is added to and removed from the registry of
    [five_registrations]. *)
Lemma removeListener_after_on_witness :
  inherited "accountsChanged" = false
  /\ handlers (register (register registered0 (Add "accountsChanged" 7))
                        (Remove "accountsChanged" 7)) "accountsChanged"
     = Set_delete (handlers registered0 "accountsChanged") 7.
Proof.
  split; [reflexivity |].
  exact (proj1 (removeListener_after_on registered0 "accountsChanged" 7 eq_refl)).
Defined.

(** Handler 3 was removed already. *)
Lemma removeListener_absent_witness :
  (3%nat ∉ handlers registered0 "accountsChanged")
  /\ _m (snd (removeListener "accountsChanged" 3 registered0)) = _m registered0.
Proof.
  assert (H : 3%nat ∉ handlers registered0 "accountsChanged").
  { vm_compute. intros H. repeat (apply elem_of_cons in H as [H | H]; [discriminate |]).
    inversion H. }
  split; [exact H |].
  exact (removeListener_absent registered0 "accountsChanged" 3 H).
Defined.

(** The event ['toString']. *)
Lemma prototype_event_throws_witness :
  (_m s0 = ∅ /\ inherited "toString" = true)
  /\ (exists e, fst (on "toString" 1 registered0) = Throw e)
  /\ (exists e, fst (removeListener "toString" 1 registered0) = Throw e)
  /\ (exists e, fst (_emitFromHost lower page2 "toString" VNull registered0) = Throw e)
  /\ _m (snd (on "toString" 1 registered0)) = _m registered0
  /\ invoked (snd (_emitFromHost lower page2 "toString" VNull registered0))
     = invoked registered0.
Proof.
  split; [split; reflexivity |].
  exact (prototype_event_throws lower page2 five_registrations "toString" 1 VNull s0
           eq_refl eq_refl).
Defined.


(** ['eth_blockNumber'] answered with ['0x10']. *)
Lemma request_passes_result_witness :
  (fst (callHost0 (Some (answering (result_response (VStr "0x10"))))
          [("id", VNum 1); ("method", VStr "eth_blockNumber"); ("params", VUndef)] connected)
   = Normal (Fulfilled (VStr "0x10"))
   /\ infers (VStr "eth_blockNumber") (VStr "0x10") = false)
  /\ request0 (Some (answering (result_response (VStr "0x10")))) 1
              (VStr "eth_blockNumber") VUndef connected
     = (Normal (Fulfilled (VStr "0x10")), connected).
Proof.
  split; [split; reflexivity |].
  exact (on_page request_passes_result (Some (answering (result_response (VStr "0x10")))) 1
           (VStr "eth_blockNumber") VUndef (VStr "0x10") connected eq_refl eq_refl).
Defined.

(** The host answers ['eth_accounts'] with [null]. *)
Lemma request_null_response_witness :
  (answering VNull (BRIDGE no_config)
     (no_json [("id", VNum 1); ("method", VStr "eth_accounts"); ("params", VUndef)])
   = Resolves VNull
   /\ decoded no_parse VNull VNull /\ truthy VNull = false)
  /\ request0 (Some (answering VNull)) 1 (VStr "eth_accounts") VUndef connected
     = (Normal (Fulfilled VNull), connected).
Proof.
  split; [repeat split |].
  exact (on_page request_null_response (answering VNull) 1 (VStr "eth_accounts") VUndef
           VNull VNull connected eq_refl eq_refl eq_refl).
Defined.

(** A reply text that does not parse, a rejecting host and a hanging host. *)
Lemma request_failure_passes_witness :
  (no_parse "{" = Throw (VStr "SyntaxError"))
  /\ request0 (Some (answering (VStr "{"))) 1 (VStr "eth_accounts") VUndef connected
     = (Normal (Rejected (VStr "SyntaxError")), connected)
  /\ request0 (Some (rejecting (VNum 4100))) 1 (VStr "eth_accounts") VUndef connected
     = (Normal (Rejected (VNum 4100)), connected)
  /\ request0 (Some hanging) 1 (VStr "eth_accounts") VUndef connected
     = (Normal Pending, connected).
Proof.
  split; [reflexivity |]. split; [| split].
  - exact (proj1 (on_page request_failure_passes (answering (VStr "{")) 1
                    (VStr "eth_accounts") VUndef connected)
             "{" (VStr "SyntaxError") eq_refl eq_refl).
  - exact (proj1 (proj2 (on_page request_failure_passes (rejecting (VNum 4100)) 1
                           (VStr "eth_accounts") VUndef connected))
             (VNum 4100) eq_refl).
  - exact (proj2 (proj2 (on_page request_failure_passes hanging 1
                           (VStr "eth_accounts") VUndef connected)) eq_refl).
Defined.

(** The host pushes [null] over the address ['0xAbC']. *)
Lemma host_push_disconnects_witness :
  (is_address (_selectedAddress connected) = true /\ truthy (first_of VNull) = false)
  /\ exists s',
       emitFromHost0 "accountsChanged" VNull connected = (Normal tt, s')
       /\ _selectedAddress s' = VNull
       /\ _chainId s' = _chainId connected
       /\ emitted s' = [("accountsChanged", [VArr (Own 0) []])].
Proof.
  split; [split; reflexivity |].
  exact (host_push_disconnects lower page2 VNull connected eq_refl eq_refl).
Defined.



(** [sendAsync({id:7, method:'eth_chainId'}, cb)] answered with ['0x1'],
    with a callback that returns (9) and one that throws (2). *)
Lemma callback_on_success_witness :
  invoked (snd (sendAsync0 (Some (answering (result_response (VStr "0x1")))) 1
                           chainId_payload (VFun 9) s0))
  = [(9%nat, [VNull; VObj (Own 0) [("id", VNum 7); ("jsonrpc", VStr "2.0");
                                   ("result", VStr "0x1")]])]
  /\ invoked (snd (send0 (Some (answering (result_response (VStr "0x1")))) 1
                         chainId_payload (VFun 2) s0))
     = [(2%nat, [VNull; VObj (Own 0) [("id", VNum 7); ("jsonrpc", VStr "2.0");
                                      ("result", VStr "0x1")]]);
        (2%nat, [VStr "boom"; VNull])].
Proof.
  split.
  - exact (proj1 (proj2 (proj1
      (on_page callback_on_success (answering (result_response (VStr "0x1"))) 1 (Ext 2)
         [("id", VNum 7); ("method", VStr "eth_chainId")] 9%nat
         (result_response (VStr "0x1")) (result_response (VStr "0x1")) s0
         eq_refl eq_refl eq_refl eq_refl)))).
  - exact (proj1 (proj2 (proj2
      (on_page callback_on_success (answering (result_response (VStr "0x1"))) 1 (Ext 2)
         [("id", VNum 7); ("method", VStr "eth_chainId")] 2%nat
         (result_response (VStr "0x1")) (result_response (VStr "0x1")) s0
         eq_refl eq_refl eq_refl eq_refl)))).
Defined.

(** The host rejects with the number 4100, and with [undefined]. *)
Lemma send_wraps_failure_witness :
  send0 (Some (rejecting (VNum 4100))) 1 chainId_payload VUndef s0
  = (Normal (APromise (Fulfilled (VObj (Own 0)
       [("id", VNum 7); ("jsonrpc", VStr "2.0");
        ("error", VObj (Own 1) [("code", VNum (-32603)); ("message", VUndef);
                                ("data", VUndef)])]))),
     allocate 2 s0)
  /\ exists e', fst (send0 (Some (rejecting VUndef)) 1 chainId_payload VUndef s0)
                = Normal (APromise (Rejected e')).
Proof.
  split.
  - exact (proj1 (on_page send_wraps_failure (Some (rejecting (VNum 4100))) 1 (Ext 2)
                    [("id", VNum 7); ("method", VStr "eth_chainId")] VUndef (VNum 4100)
                    s0 s0 eq_refl eq_refl) eq_refl).
  - exact (proj2 (on_page send_wraps_failure (Some (rejecting VUndef)) 1 (Ext 2)
                    [("id", VNum 7); ("method", VStr "eth_chainId")] VUndef VUndef
                    s0 s0 eq_refl eq_refl) eq_refl).
Defined.

(** [sendAsync({id:7, method:'eth_chainId'}, undefined)] on a page without
    bridge channel, and with a host that answers ['0x1']. *)
Lemma sendAsync_unhandled_witness :
  (String.eqb (typeof VUndef) "function" = false
   /\ exists e0,
        fst (callHost0 None [("id", VNum 7); ("method", VStr "eth_chainId"); ("params", VUndef)]
               connected)
        = Normal (Rejected e0))
  /\ (exists last,
        fst (sendAsync_last no_text no_parse no_json page2 no_config
               None 1 chainId_payload VUndef connected) = Normal last
        /\ exists e, last = Rejected e)
  /\ (exists last,
        fst (sendAsync_last no_text no_parse no_json page2 no_config
               (Some (answering (result_response (VStr "0x1")))) 1 chainId_payload VUndef
               connected) = Normal last
        /\ exists e, last = Rejected e).
Proof.
  split; [split; [reflexivity | eexists; reflexivity] |]. split.
  - exact (proj1 (sendAsync_unhandled no_text no_parse no_json page2 no_config
                    None 1 (Ext 2) [("id", VNum 7); ("method", VStr "eth_chainId")] VUndef
                    _ connected eq_refl eq_refl)).
  - exact (proj1 (sendAsync_unhandled no_text no_parse no_json page2 no_config
                    (Some (answering (result_response (VStr "0x1")))) 1 (Ext 2)
                    [("id", VNum 7); ("method", VStr "eth_chainId")] VUndef
                    _ connected eq_refl eq_refl)).
Defined.

(** A hanging host. *)
Lemma hung_bridge_call_witness :
  sendAsync0 (Some hanging) 1 chainId_payload (VFun 9) connected = (Normal tt, connected)
  /\ send0 (Some hanging) 1 chainId_payload (VFun 9) connected = (Normal Nothing, connected).
Proof.
  exact (on_page hung_bridge_call hanging 1 (Ext 2)
           [("id", VNum 7); ("method", VStr "eth_chainId")] (VFun 9) connected eq_refl).
Defined.

(** [sendAsync(null, cb)] and [send(null, cb)]. *)
Lemma null_payload_throws_witness :
  nullish VNull = true
  /\ (exists e, fst (sendAsync0 None 1 VNull (VFun 9) connected) = Throw e)
  /\ (exists e, fst (send0 None 1 VNull (VFun 9) connected) = Throw e).
Proof.
  split; [reflexivity |].
  pose (H := on_page null_payload_throws None 1 VNull (VFun 9) connected eq_refl).
  split; [exact (proj1 (proj1 H)) | exact (proj1 (proj2 H))].
Defined.

(** Provider 1 installed with the default options, then a run that sets
    [forceReplace]. *)
Lemma installed_is_final_witness :
  (ethereum empty_window = None
   /\ strict_eq (cfg_autoInject no_config) (VBool false) = false
   /\ truthy (cfg_forceReplace no_config) = false)
  /\ ethereum (snd (createEip1193Provider no_config 1 empty_window))
     = Some (mkProperty (Provider 1) false false)
  /\ fst (createEip1193Provider force_config 2
            (snd (createEip1193Provider no_config 1 empty_window))) = None.
Proof.
  split; [repeat split |].
  pose (H := installed_is_final no_config force_config 1 2 empty_window
               eq_refl eq_refl eq_refl).
  split; [exact (proj1 H) |].
  exact (proj2 (proj2 (proj2 (proj2 H))) (conj eq_refl eq_refl)).
Defined.

(** Two runs with [forceReplace]. *)
Lemma forceReplace_replaces_witness :
  (ethereum empty_window = None
   /\ strict_eq (cfg_autoInject force_config) (VBool false) = false
   /\ truthy (cfg_forceReplace force_config) = true)
  /\ ethereum (snd (createEip1193Provider force_config 2
                      (snd (createEip1193Provider force_config 1 empty_window))))
     = Some (mkProperty (Provider 2) false true)
  /\ initialized (snd (createEip1193Provider force_config 2
                         (snd (createEip1193Provider force_config 1 empty_window))))
     = 2%nat.
Proof.
  split; [repeat split |].
  pose (H := forceReplace_replaces force_config force_config 1 2 empty_window
               eq_refl eq_refl eq_refl eq_refl eq_refl).
  split; [exact (proj1 (proj2 (proj2 H))) | exact (proj2 (proj2 (proj2 H)))].
Defined.

(** Two runs with the default options. *)
Lemma web3_follows_last_run_witness :
  (ethereum empty_window = None
   /\ strict_eq (cfg_enableLegacyWeb3 no_config) (VBool false) = false)
  /\ window_ethereum (snd (createEip1193Provider no_config 2
                             (snd (createEip1193Provider no_config 1 empty_window))))
     = Provider 1
  /\ web3 (snd (createEip1193Provider no_config 2
                  (snd (createEip1193Provider no_config 1 empty_window))))
     = Some 2%nat.
Proof.
  split; [split; reflexivity |].
  exact (proj2 (proj2 (web3_follows_last_run no_config 1 empty_window))
           no_config 2%nat eq_refl eq_refl eq_refl eq_refl eq_refl).
Defined.

(** [off_config] switches the injection and the announcement off. *)
Lemma options_off_witness :
  (cfg_autoInject off_config = VBool false /\ cfg_enableEip6963 off_config = VBool false
   /\ cfg_autoInject no_config <> VBool false)
  /\ ethereum (snd (createEip1193Provider off_config 1 empty_window)) = None
  /\ requestProvider_listeners (snd (createEip1193Provider off_config 1 empty_window)) = []
  /\ window_ethereum (snd (createEip1193Provider no_config 1 empty_window)) = Provider 1.
Proof.
  assert (Hdefault : cfg_autoInject no_config <> VBool false) by discriminate.
  split; [repeat split; try reflexivity; exact Hdefault |].
  split; [| split].
  - exact (proj1 (proj2 (proj1 (options_off off_config 1 empty_window) eq_refl))).
  - exact (proj1 (proj1 (proj2 (options_off off_config 1 empty_window)) eq_refl)).
  - exact (proj2 (proj2 (options_off no_config 1 empty_window)) Hdefault eq_refl).
Defined.

(** A second run on a page where provider 1 is installed. *)
Lemma announces_once_witness :
  strict_eq (cfg_enableEip6963 no_config) (VBool false) = false
  /\ requestProvider_listeners (snd (createEip1193Provider no_config 2 installed_window))
     = [1; 2]%nat
  /\ exists tail,
       dispatched (snd (createEip1193Provider no_config 2 installed_window))
       = dispatched installed_window ++ "eip6963:announceProvider" :: tail
       /\ (tail = [] \/ tail = ["ethereum#initialized"]).
Proof.
  split; [reflexivity |].
  exact (announces_once no_config 2 installed_window eq_refl).
Defined.
